(** * migrate.py: SQLite dump to PostgreSQL dump, line by line

    A shallow embedding of [src/migrate.py].  The script reads the dump one
    line at a time, rewrites a fixed list of tokens on every line, buffers
    each [CREATE TABLE] block until its [);] line, moves foreign keys to
    [ALTER TABLE] statements written after the last input line, and skips
    triggers and views.

    Text is modelled as [string]; a character is a code point below 256.
    Module-level variables of the script are the fields of [state]; the
    output file is the list of the arguments of [postgres_f.write], in call
    order.  [str.find] returns [-1] when the pattern is absent, as in Python,
    so positions are in [Z]. *)

From Stdlib Require Import String Ascii List ZArith Lia Bool.
Import ListNotations.
Open Scope string_scope.
Open Scope Z_scope.

(** ** Python string operations used by the script *)

Module Py.

Definition LF : ascii := ascii_of_nat 10.
Definition CR : ascii := ascii_of_nat 13.
Definition TAB : ascii := ascii_of_nat 9.
Definition DQUOTE : ascii := ascii_of_nat 34.

Definition nl : string := String LF EmptyString.

(** [len(s)] *)
Definition len (s : string) : Z := Z.of_nat (String.length s).

(** [s.find(sub)]: the lowest index at which [sub] occurs, or [-1]. *)
Definition find (s sub : string) : Z :=
  match String.index 0 sub s with
  | Some n => Z.of_nat n
  | None => -1
  end.

(** [s.find(sub, start)] for [0 <= start]. *)
Definition find_from (s sub : string) (start : Z) : Z :=
  match String.index (Z.to_nat start) sub s with
  | Some n => Z.of_nat n
  | None => -1
  end.

(** [s.startswith(p)] *)
Definition startswith (s p : string) : bool := String.prefix p s.

(** [s[lo:hi]] for [0 <= lo]; Python clamps both ends to the length. *)
Definition slice (s : string) (lo hi : Z) : string :=
  String.substring (Z.to_nat lo) (Z.to_nat (hi - lo)) s.

(** [s[lo:]] for [0 <= lo]. *)
Definition slice_from (s : string) (lo : Z) : string :=
  String.substring (Z.to_nat lo) (String.length s - Z.to_nat lo) s.

(** [s[:hi]] for [0 <= hi]. *)
Definition slice_to (s : string) (hi : Z) : string :=
  String.substring 0 (Z.to_nat hi) s.

(** [s.endswith(suf)] *)
Definition endswith (s suf : string) : bool :=
  (String.length suf <=? String.length s)%nat &&
  String.eqb
    (String.substring (String.length s - String.length suf)
                      (String.length suf) s)
    suf.

(** [s[:-2]] on a string of at least two characters. *)
Definition drop_last2 (s : string) : string :=
  String.substring 0 (String.length s - 2) s.

(** [s.replace(old, new)] for a non-empty [old]: occurrences are taken from
    left to right and do not overlap.  [skip] counts the characters of a
    matched occurrence that are still to be passed over. *)
Fixpoint replace_aux (old new : string) (skip : nat) (s : string) : string :=
  match s with
  | EmptyString => EmptyString
  | String c s' =>
      match skip with
      | S k => replace_aux old new k s'
      | O =>
          if String.prefix old s
          then new ++ replace_aux old new (String.length old - 1) s'
          else String c (replace_aux old new 0 s')
      end
  end.

Definition replace (s old new : string) : string := replace_aux old new 0 s.

(** [c.isspace()] on the code points below 256. *)
Definition isspace (c : ascii) : bool :=
  let n := nat_of_ascii c in
  ((9 <=? n) && (n <=? 13) || (28 <=? n) && (n <=? 32)
   || (n =? 133) || (n =? 160))%nat.

Fixpoint lstrip (s : string) : string :=
  match s with
  | EmptyString => EmptyString
  | String c s' => if isspace c then lstrip s' else s
  end.

Fixpoint rstrip (s : string) : string :=
  match s with
  | EmptyString => EmptyString
  | String c s' =>
      match rstrip s' with
      | EmptyString => if isspace c then EmptyString else String c EmptyString
      | r => String c r
      end
  end.

(** [s.strip()] *)
Definition strip (s : string) : string := rstrip (lstrip s).

End Py.

(** ** Constants of the script (lines 55-82) *)

Definition CONST_SERIAL_PRIMARY_KEY : string := "SERIAL PRIMARY KEY," ++ Py.nl.
Definition CONST_PRIMARY_KEY : string := "PRIMARY KEY(".
Definition CONST_FOREIGN_KEY : string := "FOREIGN KEY".
Definition CONST_CREATE_TABLE : string := "CREATE TABLE".
Definition CONST_CREATE_TRIGGER_START : string := "CREATE TRIGGER".
Definition CONST_CREATE_TRIGGER_END : string := "END;" ++ Py.nl.
Definition CONST_CREATE_VIEW_START : string := "CREATE VIEW".
Definition CONST_CREATE_VIEW_END : string := ";" ++ Py.nl.
Definition CONST_BOOL_TRUE : string := "TRUE".
Definition CONST_BOOL_FALSE : string := "FALSE".
Definition CONST_EXISTS : string := "EXISTS ".
Definition CONST_AUTOINCREMENT : string := " AUTOINCREMENT".
Definition CONST_UNSIGNED : string := "UNSIGNED".
Definition CONST_DEFAULT : string := " DEFAUL".
Definition CONST_DATATYPE_ENUM : string := "ENUM".
Definition CONST_DATATYPE_YEAR : string := "YEAR".
Definition CONST_DATATYPE_TEXT : string := "TEXT".
Definition CONST_DATATYPE_DATEIME : string := "DATETIME".
Definition CONST_DATATYPE_TIMESTAMP : string := "TIMESTAMP".
Definition CONST_DATATYPE_BOOLEAN : string := "BOOLEAN".
Definition CONST_DATATYPE_INT_DEFAULT : string := "INT DEFAULT".
Definition CONST_DATATYPE_MEDIUMINT : string := "MEDIUMINT".
Definition CONST_DATATYPE_INTEGER : string := "INTEGER".
Definition CONST_DATATYPE_TINYINT : string := "TINYINT".
Definition CONST_DATATYPE_SMALLINT : string := "SMALLINT".
Definition CONST_DATATYPE_BLOB : string := "BLOB".
Definition CONST_DATATYPE_BYTEA : string := "BYTEA".

(** The literals of lines 184 and 231, and of line 267. *)
Definition TERMINATOR : string := ");".
Definition COMMIT : string := "COMMIT;" ++ Py.nl.

(** ** Helper functions (lines 93-109) *)

Definition get_table_name (a_line : string) : string :=
  let pt1 := Py.find a_line CONST_EXISTS in
  if pt1 >=? 0 then
    let pt1 := pt1 + Py.len CONST_EXISTS in
    let pt2 := Py.find a_line " (" in
    if pt2 >? pt1 then Py.slice a_line pt1 pt2 else EmptyString
  else EmptyString.

Definition modify_primary_key_syntax (field_name : string) : string :=
  let pt1 := Py.find field_name " " in
  if pt1 >=? 0 then
    let pt1 := pt1 + 1 in
    Py.slice_to field_name pt1 ++ CONST_SERIAL_PRIMARY_KEY
  else field_name.

(** ** Token rewrites applied to every line (lines 122-145) *)

(** Lines 122-126. *)
Definition rewrite_head (line : string) : string :=
  let line := Py.replace line (String Py.CR EmptyString) EmptyString in
  let line :=
    Py.strip (Py.replace line (String Py.TAB EmptyString) " ") ++ Py.nl in
  let line := Py.replace line (String Py.DQUOTE EmptyString) EmptyString in
  let line :=
    Py.replace line CONST_DATATYPE_DATEIME CONST_DATATYPE_TIMESTAMP in
  Py.replace line CONST_UNSIGNED EmptyString.

(** Lines 127-132. *)
Definition rewrite_boolean (line : string) : string :=
  if Py.find line CONST_DATATYPE_BOOLEAN >=? 0 then
    let line :=
      Py.replace line CONST_DATATYPE_BOOLEAN CONST_DATATYPE_INTEGER in
    if Py.find line CONST_BOOL_TRUE >=? 0 then
      Py.replace line CONST_BOOL_TRUE "1"
    else if Py.find line CONST_BOOL_FALSE >=? 0 then
      Py.replace line CONST_BOOL_FALSE "0"
    else line
  else line.

(** Lines 133-138. *)
Definition rewrite_types (line : string) : string :=
  let line := Py.replace line CONST_DATATYPE_ENUM CONST_DATATYPE_TEXT in
  let line := Py.replace line CONST_DATATYPE_YEAR CONST_DATATYPE_TEXT in
  let line :=
    Py.replace line CONST_DATATYPE_INT_DEFAULT
               (CONST_DATATYPE_INTEGER ++ " DEFAULT") in
  let line :=
    Py.replace line CONST_DATATYPE_MEDIUMINT CONST_DATATYPE_INTEGER in
  let line :=
    Py.replace line CONST_DATATYPE_TINYINT CONST_DATATYPE_SMALLINT in
  Py.replace line CONST_DATATYPE_BLOB CONST_DATATYPE_BYTEA.

(** Lines 143-145: a field name followed by no datatype gets [TEXT]. *)
Definition patch_missing_datatype (line : string) : string :=
  let pt := Py.find line " " in
  if pt >? 0 then
    if String.eqb (Py.slice line (pt + 1) (pt + 8)) CONST_DEFAULT
    then Py.slice_to line (pt + 1) ++ CONST_DATATYPE_TEXT
         ++ Py.slice_from line (pt + 1)
    else line
  else line.

Definition token_rewrite (line : string) : string :=
  patch_missing_datatype (rewrite_types (rewrite_boolean (rewrite_head line))).

(** ** Module-level state (lines 84-91) *)

Record fk_entry := mk_fk { table_name : string; fk : string }.

(** [a_line] is bound for the first time inside the finalization of a table
    block; [None] stands for the unbound name.  [foundTransaction] is never
    read or written after line 89 and is left out. *)
Record state := mk_state {
  tableCount : nat;
  currentTableName : string;
  foundTable : bool;
  foundView : bool;
  foundTrigger : bool;
  buffer : list string;
  fk_buffer : list fk_entry;
  a_line : option string;
  output : list string
}.

Definition init : state :=
  {| tableCount := 0;
     currentTableName := EmptyString;
     foundTable := false;
     foundView := false;
     foundTrigger := false;
     buffer := [];
     fk_buffer := [];
     a_line := None;
     output := [] |}.

(** The result of processing one line: the next state, or the [NameError]
    Python raises when an unbound name is read (with the state at the raise). *)
Inductive outcome :=
| Finished (s : state)
| NameError (s : state).

Definition state_of (o : outcome) : state :=
  match o with Finished s => s | NameError s => s end.

Definition nonempty (s : string) : bool := negb (String.eqb s EmptyString).

(** ** Finalization of a table block (lines 185-243) *)

(** Lines 195-203: does [a_line] hold [PRIMARY KEY(<name> ... AUTOINCREMENT]?
    Gives the captured field name (line 207) when it does. *)
Definition autoincrement_key (a_line : string) : option string :=
  let pt1 := Py.find a_line CONST_PRIMARY_KEY in
  if pt1 >=? 0 then
    let pt1 := pt1 + Py.len CONST_PRIMARY_KEY in
    let pt2 := Py.find_from a_line " " pt1 in
    if pt2 >=? pt1 then
      if Py.find a_line CONST_AUTOINCREMENT >=? 0
      then Some (Py.slice a_line pt1 pt2)
      else None
    else None
  else None.

(** Lines 190-213: the first matching line is emptied and the scan stops.
    The result is [pk_field_name] and the buffer. *)
Fixpoint scan_primary_key (buf : list string) : string * list string :=
  match buf with
  | [] => (EmptyString, [])
  | a :: rest =>
      match autoincrement_key a with
      | Some name => (name, EmptyString :: rest)
      | None =>
          let (name, rest') := scan_primary_key rest in (name, a :: rest')
      end
  end.

(** Lines 219-224: the first line that holds [pk_field_name] is rewritten. *)
Fixpoint rewrite_key_field (pk_field_name : string) (buf : list string)
  : list string :=
  match buf with
  | [] => []
  | a :: rest =>
      if Py.find a pk_field_name >=? 0
      then modify_primary_key_syntax a :: rest
      else a :: rewrite_key_field pk_field_name rest
  end.

(** Lines 185-224. *)
Definition rewrite_primary_key (buf : list string) : list string :=
  let (pk_field_name, buf) := scan_primary_key buf in
  if nonempty pk_field_name then rewrite_key_field pk_field_name buf else buf.

(** Line 231: a line the reverse scan stops at. *)
Definition is_content (a_line : string) : bool :=
  nonempty a_line && negb (Py.startswith a_line TERMINATOR).

(** Line 232. *)
Definition drop_trailing_comma (a_line : string) : string :=
  if Py.endswith a_line ("," ++ Py.nl)
  then Py.drop_last2 a_line ++ Py.nl
  else a_line.

(** Lines 230-234 on [reversed(buffer)]. *)
Fixpoint fix_comma_reversed (rbuf : list string) : list string :=
  match rbuf with
  | [] => []
  | a :: rest =>
      if is_content a then drop_trailing_comma a :: rest
      else a :: fix_comma_reversed rest
  end.

(** Lines 229-234. *)
Definition fix_trailing_comma (buf : list string) : list string :=
  rev (fix_comma_reversed (rev buf)).

(** Lines 238-239: what the write loop sends to the file. *)
Definition written (buf : list string) : list string := filter nonempty buf.

(** Lines 185-243.  Every loop of the finalization assigns [a_line]; the
    write loop runs last and leaves the last element of the buffer in it. *)
Definition finalize (s : state) : state :=
  let buf := fix_trailing_comma (rewrite_primary_key (buffer s)) in
  {| tableCount := S (tableCount s);
     currentTableName := EmptyString;
     foundTable := false;
     foundView := foundView s;
     foundTrigger := foundTrigger s;
     buffer := buf;
     fk_buffer := fk_buffer s;
     a_line := match buf with
               | [] => a_line s
               | _ :: _ => Some (last buf EmptyString)
               end;
     output := output s ++ written buf |}.

(** ** One iteration of the main loop (lines 119-258) *)

(** Lines 150-154. *)
Definition open_table (s : state) (line : string) : state :=
  if Py.startswith line CONST_CREATE_TABLE then
    {| tableCount := tableCount s;
       currentTableName := get_table_name line;
       foundTable := true;
       foundView := foundView s;
       foundTrigger := foundTrigger s;
       buffer := [];
       fk_buffer := fk_buffer s;
       a_line := a_line s;
       output := output s |}
  else s.

(** Line 159-160: the line is a foreign key that goes to [fk_buffer]. *)
Definition captures (s : state) (line : string) : bool :=
  (Py.find line CONST_FOREIGN_KEY >=? 0) && nonempty (currentTableName s).

(** Lines 159-162: the state and the line that the rest of the loop sees. *)
Definition capture_foreign_key (s : state) (line : string) : state * string :=
  if captures s line then
    ({| tableCount := tableCount s;
        currentTableName := currentTableName s;
        foundTable := foundTable s;
        foundView := foundView s;
        foundTrigger := foundTrigger s;
        buffer := buffer s;
        fk_buffer :=
          fk_buffer s ++ [mk_fk (currentTableName s) line];
        a_line := a_line s;
        output := output s |}, EmptyString)
  else (s, line).

(** Lines 167 and 172. *)
Definition mark_trigger_view (s : state) (line : string) : state :=
  {| tableCount := tableCount s;
     currentTableName := currentTableName s;
     foundTable := foundTable s;
     foundView :=
       if Py.startswith line CONST_CREATE_VIEW_START then true
       else foundView s;
     foundTrigger :=
       if Py.startswith line CONST_CREATE_TRIGGER_START then true
       else foundTrigger s;
     buffer := buffer s;
     fk_buffer := fk_buffer s;
     a_line := a_line s;
     output := output s |}.

Definition set_buffer (s : state) (buf : list string) : state :=
  {| tableCount := tableCount s;
     currentTableName := currentTableName s;
     foundTable := foundTable s;
     foundView := foundView s;
     foundTrigger := foundTrigger s;
     buffer := buf;
     fk_buffer := fk_buffer s;
     a_line := a_line s;
     output := output s |}.

Definition set_foundTrigger (s : state) (b : bool) : state :=
  {| tableCount := tableCount s;
     currentTableName := currentTableName s;
     foundTable := foundTable s;
     foundView := foundView s;
     foundTrigger := b;
     buffer := buffer s;
     fk_buffer := fk_buffer s;
     a_line := a_line s;
     output := output s |}.

Definition set_foundView (s : state) (b : bool) : state :=
  {| tableCount := tableCount s;
     currentTableName := currentTableName s;
     foundTable := foundTable s;
     foundView := b;
     foundTrigger := foundTrigger s;
     buffer := buffer s;
     fk_buffer := fk_buffer s;
     a_line := a_line s;
     output := output s |}.

Definition write (s : state) (text : string) : state :=
  {| tableCount := tableCount s;
     currentTableName := currentTableName s;
     foundTable := foundTable s;
     foundView := foundView s;
     foundTrigger := foundTrigger s;
     buffer := buffer s;
     fk_buffer := fk_buffer s;
     a_line := a_line s;
     output := output s ++ [text] |}.

(** Lines 179-258 on the line left by lines 150-172. *)
Definition route (s : state) (line : string) : outcome :=
  if foundTable s then
    let s := set_buffer s (buffer s ++ [line]) in
    if Py.startswith line TERMINATOR then Finished (finalize s)
    else Finished s
  else if foundTrigger s then
    match a_line s with
    | None => NameError s
    | Some a =>
        if Py.find a CONST_CREATE_TRIGGER_END >=? 0
        then Finished (set_foundTrigger s false)
        else Finished s
    end
  else if foundView s then
    match a_line s with
    | None => NameError s
    | Some a =>
        if Py.find a CONST_CREATE_VIEW_END >=? 0
        then Finished (set_foundView s false)
        else Finished s
    end
  else if nonempty line then Finished (write s line)
  else Finished s.

(** The body of the [for] loop on a line already rewritten. *)
Definition step_rewritten (s : state) (line : string) : outcome :=
  let s := open_table s line in
  let (s, line) := capture_foreign_key s line in
  route (mark_trigger_view s line) line.

Definition step (s : state) (raw : string) : outcome :=
  step_rewritten s (token_rewrite raw).

(** The [for] loop (line 119); an exception leaves it. *)
Fixpoint process (s : state) (lines : list string) : outcome :=
  match lines with
  | [] => Finished s
  | raw :: rest =>
      match step s raw with
      | Finished s' => process s' rest
      | NameError s' => NameError s'
      end
  end.

(** ** After the last line (lines 260-267) *)

(** Lines 262-265. *)
Definition alter_line (e : fk_entry) : string :=
  let a := fk e in
  let a :=
    if Py.startswith a (String Py.TAB EmptyString) then Py.slice_from a 1
    else a in
  let a :=
    if Py.endswith a ("," ++ Py.nl) then Py.drop_last2 a ++ ";" ++ Py.nl
    else a in
  "ALTER TABLE " ++ table_name e ++ " ADD " ++ a.

(** What a run leaves in the output file: everything on completion, what was
    written before the exception otherwise. *)
Inductive run_result :=
| Completed (out : list string)
| Failed (partial : list string).

Definition run (lines : list string) : run_result :=
  match process init lines with
  | Finished s =>
      Completed (output s ++ map alter_line (fk_buffer s) ++ [COMMIT])
  | NameError s => Failed (output s)
  end.

(** ** Dump lines and predicates used in the statements *)

(** A dump line as the file iterator yields it: the text and its newline. *)
Definition ln (text : string) : string := text ++ Py.nl.

Definition dump (texts : list string) : list string := map ln texts.

(** [c in s] for a character. *)
Fixpoint occurs (c : ascii) (s : string) : bool :=
  match s with
  | EmptyString => false
  | String d s' => Ascii.eqb c d || occurs c s'
  end.



(** What holds of the module-level variables throughout a run: a table name
    is kept only while a block is open, [a_line] is unbound until the first
    block has been finalized, and no foreign key is queued without a table
    name. *)
Definition consistent (s : state) : Prop :=
  (foundTable s = false -> currentTableName s = EmptyString) /\
  (tableCount s = 0%nat -> a_line s = None) /\
  Forall (fun e => table_name e <> EmptyString) (fk_buffer s).

(** The foreign-key queue only grows. *)
Definition queue_extends (s s' : state) : Prop :=
  exists added, fk_buffer s' = (fk_buffer s ++ added)%list.

(** Once a table block is open or [a_line] is bound, lines 252 and 256 can no
    longer read an unbound name. *)
Definition bound_or_open (s : state) : Prop :=
  foundTable s = true \/ a_line s <> None.

(** The line starts one of the three statements the loop looks for at lines
    150, 167 and 172. *)
Definition starts_block (line : string) : bool :=
  Py.startswith line CONST_CREATE_TABLE
  || Py.startswith line CONST_CREATE_TRIGGER_START
  || Py.startswith line CONST_CREATE_VIEW_START.

(** No block is open: the [else] branch of line 257 is the one taken. *)
Definition idle (s : state) : Prop :=
  foundTable s = false /\ foundTrigger s = false /\ foundView s = false /\
  currentTableName s = EmptyString.

(** What lines 159-162 and 180 put in the buffer for a line of the block of
    table [name]. *)
Definition block_entry (name line : string) : string :=
  if (Py.find line CONST_FOREIGN_KEY >=? 0) && nonempty name
  then EmptyString else line.

(** What lines 159-161 put in the queue for the lines of that block. *)
Definition block_queue (name : string) (lines : list string)
  : list fk_entry :=
  flat_map
    (fun line =>
       if (Py.find line CONST_FOREIGN_KEY >=? 0) && nonempty name
       then [mk_fk name line] else [])
    lines.

(** While [a_line] is unbound no block has been finalized, and outside a
    table block neither [foundTrigger] nor [foundView] is set. *)
Definition settled (s : state) : Prop :=
  a_line s = None ->
  tableCount s = 0%nat /\
  (foundTable s = false -> foundTrigger s = false /\ foundView s = false).

(** What a run leaves in the output file. *)
Definition file_content (r : run_result) : list string :=
  match r with Completed out => out | Failed partial => partial end.

(** Everything written so far ends with a newline; a buffered entry is empty
    or ends with a newline; every queued constraint is a rewritten line. *)
Definition lined (s : state) : Prop :=
  Forall (fun x => Py.endswith x Py.nl = true) (output s) /\
  Forall (fun a => a = EmptyString \/ Py.endswith a Py.nl = true) (buffer s) /\
  Forall (fun e => exists raw, fk e = token_rewrite raw) (fk_buffer s).

(** [p] and [n] hold different characters at some position of both. *)
Fixpoint differ (p n : string) : bool :=
  match p, n with
  | String a p', String b n' => negb (Ascii.eqb a b) || differ p' n'
  | _, _ => false
  end.

(** [p] starts at no position of [n], whatever follows [n]. *)
Fixpoint starts_nowhere (p n : string) : bool :=
  match n with
  | EmptyString => true
  | String _ n' => differ p n && starts_nowhere p n'
  end.

(** No end of [p] runs into the beginning of [n]. *)
Fixpoint crosses_nowhere (p n : string) : bool :=
  match p with
  | EmptyString => true
  | String _ p' => differ p n && crosses_nowhere p' n
  end.

(** [p] holds no whitespace. *)
Fixpoint spaceless (p : string) : bool :=
  match p with
  | EmptyString => true
  | String c p' => negb (Py.isspace c) && spaceless p'
  end.

(** An occurrence of [p] and an occurrence of [old] cannot overlap: neither
    holds the first character of the other. *)
Definition apart (old p : string) : bool :=
  match old, p with
  | String o _, String p0 _ => negb (occurs o p) && negb (occurs p0 old)
  | _, _ => false
  end.

(** * Facts about the string operations *)

Section StringFacts.

Lemma index0_cons (p : string) (c : ascii) (s : string) :
  String.index 0 p (String c s) =
  if String.prefix p (String c s) then Some 0%nat
  else option_map S (String.index 0 p s).
Proof.
  simpl. destruct (String.prefix p (String c s)); [reflexivity|].
  destruct (String.index 0 p s); reflexivity.
Qed.

Lemma index0_none_cons (p : string) (c : ascii) (s : string) :
  String.index 0 p (String c s) = None ->
  String.prefix p (String c s) = false /\ String.index 0 p s = None.
Proof.
  rewrite index0_cons.
  destruct (String.prefix p (String c s)); [discriminate|].
  destruct (String.index 0 p s); [discriminate|]. auto.
Qed.

Lemma find_absent (s p : string) :
  Py.find s p = -1 <-> String.index 0 p s = None.
Proof.
  unfold Py.find. destruct (String.index 0 p s); split; intros H;
    try reflexivity; try discriminate; lia.
Qed.

Lemma find_test_absent (s p : string) :
  (Py.find s p >=? 0) = false <-> Py.find s p = -1.
Proof.
  unfold Py.find. destruct (String.index 0 p s); split; intros H;
    try reflexivity; lia.
Qed.


Lemma prefix_head_differs (a : ascii) (p : string) (b : ascii) (t : string) :
  Ascii.eqb a b = false -> String.prefix (String a p) (String b t) = false.
Proof.
  intros H. simpl. destruct (ascii_dec a b) as [->|]; [|reflexivity].
  rewrite Ascii.eqb_refl in H. discriminate.
Qed.

Lemma prefix_cons_same (a : ascii) (p t : string) :
  String.prefix (String a p) (String a t) = String.prefix p t.
Proof. simpl. destruct (ascii_dec a a); congruence. Qed.

Variables (old : string) (n0 : ascii) (new' : string).
Let new := String n0 new'.

(** A string free of the first character of [new] that is not a prefix of
    [t] is not a prefix of the replaced [t] either. *)
Lemma prefix_replace_false (p t : string) :
  occurs n0 p = false ->
  String.prefix p t = false ->
  String.prefix p (Py.replace_aux old new 0 t) = false.
Proof.
  revert t. induction p as [|a p IH]; intros t Hocc Hp.
  - destruct t; discriminate.
  - simpl in Hocc. apply orb_false_elim in Hocc. destruct Hocc as [Ha Hocc].
    destruct t as [|c t]; [reflexivity|].
    cbn [Py.replace_aux].
    destruct (String.prefix old (String c t)).
    + unfold new. cbn [append]. apply prefix_head_differs.
      rewrite Ascii.eqb_sym. exact Ha.
    + destruct (ascii_dec a c) as [->|Hne].
      * rewrite prefix_cons_same in *. auto.
      * simpl. destruct (ascii_dec a c); congruence.
Qed.

(** No occurrence of [p] starts inside a string [n] that is free of the first
    character of [p]. *)
Lemma index_app_none (p0 : ascii) (p' n x : string) :
  occurs p0 n = false ->
  String.index 0 (String p0 p') x = None ->
  String.index 0 (String p0 p') (n ++ x) = None.
Proof.
  intros Hocc Hx. induction n as [|d n IH]; [exact Hx|].
  simpl in Hocc. apply orb_false_elim in Hocc. destruct Hocc as [Hd Hocc].
  cbn [append]. rewrite index0_cons, prefix_head_differs by exact Hd.
  rewrite IH by exact Hocc. reflexivity.
Qed.

(** A pattern [p] absent from [s] stays absent when [old] is replaced by
    [new], as long as [new] and [p] do not share their first characters. *)
Lemma replace_aux_keeps_absent (p0 : ascii) (p' : string) :
  occurs n0 (String p0 p') = false ->
  occurs p0 new = false ->
  forall s k,
    String.index 0 (String p0 p') s = None ->
    String.index 0 (String p0 p') (Py.replace_aux old new k s) = None.
Proof.
  intros Hn Hp. induction s as [|c s IH]; intros k Hs; [reflexivity|].
  apply index0_none_cons in Hs. destruct Hs as [Hpre Hs].
  cbn [Py.replace_aux]. destruct k as [|k]; [|auto].
  destruct (String.prefix old (String c s)) eqn:Hold.
  - apply index_app_none; auto.
  - rewrite index0_cons.
    assert (Hr : String.prefix (String p0 p')
                   (Py.replace_aux old new 0 (String c s)) = false)
      by (apply prefix_replace_false; assumption).
    cbn [Py.replace_aux] in Hr. rewrite Hold in Hr. rewrite Hr.
    rewrite IH by exact Hs. reflexivity.
Qed.

End StringFacts.

(** After [s.replace(old, new)] no occurrence of [old] is left, when [old]
    and [new] do not share their first characters. *)
Lemma replace_aux_removes (o0 : ascii) (old' : string) (n0 : ascii)
  (new' : string) :
  occurs n0 (String o0 old') = false ->
  occurs o0 (String n0 new') = false ->
  forall s k,
    String.index 0 (String o0 old')
      (Py.replace_aux (String o0 old') (String n0 new') k s) = None.
Proof.
  intros Hn Ho. induction s as [|c s IH]; intros k; [reflexivity|].
  cbn [Py.replace_aux]. destruct k as [|k]; [|auto].
  destruct (String.prefix (String o0 old') (String c s)) eqn:Hold.
  - apply index_app_none; auto.
  - rewrite index0_cons.
    assert (Hr : String.prefix (String o0 old')
                   (Py.replace_aux (String o0 old') (String n0 new') 0
                      (String c s)) = false)
      by (apply prefix_replace_false; assumption).
    cbn [Py.replace_aux] in Hr. rewrite Hold in Hr. rewrite Hr.
    rewrite IH. reflexivity.
Qed.

Lemma replace_removes (s : string) (o0 : ascii) (old' : string) (n0 : ascii)
  (new' : string) :
  occurs n0 (String o0 old') = false ->
  occurs o0 (String n0 new') = false ->
  Py.find (Py.replace s (String o0 old') (String n0 new')) (String o0 old')
  = -1.
Proof.
  intros Hn Ho. apply find_absent. apply replace_aux_removes; assumption.
Qed.

Lemma replace_keeps_absent (s old : string) (n0 : ascii) (new' : string)
  (p0 : ascii) (p' : string) :
  occurs n0 (String p0 p') = false ->
  occurs p0 (String n0 new') = false ->
  Py.find s (String p0 p') = -1 ->
  Py.find (Py.replace s old (String n0 new')) (String p0 p') = -1.
Proof.
  intros Hn Hp Hs. apply find_absent. apply find_absent in Hs.
  apply replace_aux_keeps_absent; assumption.
Qed.


Lemma prefix_agree (p q l : string) :
  String.prefix p l = true -> String.prefix q l = true ->
  String.prefix p q = true \/ String.prefix q p = true.
Proof.
  revert q l. induction p as [|a p IH]; intros q l Hp Hq.
  - left. destruct q; reflexivity.
  - destruct q as [|b q]; [right; reflexivity|].
    destruct l as [|c l]; [discriminate|].
    simpl in Hp, Hq |- *.
    destruct (ascii_dec a c) as [->|]; [|discriminate].
    destruct (ascii_dec b c) as [->|]; [|discriminate].
    destruct (ascii_dec c c); [|congruence].
    eauto.
Qed.

(** Two keywords of which neither starts the other cannot both start a line. *)
Lemma startswith_exclusive (l p q : string) :
  String.prefix p q = false -> String.prefix q p = false ->
  Py.startswith l p = true -> Py.startswith l q = false.
Proof.
  unfold Py.startswith. intros Hpq Hqp Hp.
  destruct (String.prefix q l) eqn:Hq; [|reflexivity].
  destruct (prefix_agree p q l Hp Hq); congruence.
Qed.

Lemma nonempty_true (s : string) : nonempty s = true -> s <> EmptyString.
Proof. unfold nonempty. destruct s; [discriminate|]. intros _ H. discriminate. Qed.

(** ** Slices and suffixes *)

Lemma string_app_assoc (a b c : string) : (a ++ b) ++ c = a ++ (b ++ c).
Proof. induction a as [|x a IH]; simpl; [reflexivity|]. now rewrite IH. Qed.

Lemma string_length_app (a b : string) :
  String.length (a ++ b) = (String.length a + String.length b)%nat.
Proof. induction a as [|x a IH]; simpl; [reflexivity|]. now rewrite IH. Qed.

Lemma substring_all (s : string) : String.substring 0 (String.length s) s = s.
Proof. induction s as [|c s IH]; simpl; [reflexivity|]. now rewrite IH. Qed.

Lemma substring_app_right (a b : string) :
  String.substring (String.length a) (String.length b) (a ++ b) = b.
Proof. induction a as [|x a IH]; simpl; [apply substring_all|exact IH]. Qed.

Lemma substring_split (s : string) (n : nat) :
  (n <= String.length s)%nat ->
  s = String.substring 0 n s
      ++ String.substring n (String.length s - n) s.
Proof.
  revert n. induction s as [|c s IH]; intros n Hn.
  - simpl in Hn. assert (n = 0%nat) by lia. subst. reflexivity.
  - destruct n as [|n].
    + simpl. now rewrite substring_all.
    + simpl in Hn |- *. f_equal. apply IH. lia.
Qed.

Lemma string_app_inj_tail (a b : string) (c : ascii) :
  a ++ String c EmptyString = b ++ String c EmptyString -> a = b.
Proof.
  revert b. induction a as [|x a IH]; intros [|y b] H; simpl in H.
  - reflexivity.
  - inversion H as [[Hc Hb]]. destruct b; discriminate.
  - inversion H as [[Hc Ha]]. destruct a; discriminate.
  - inversion H. f_equal. auto.
Qed.

Lemma endswith_app (a suf : string) : Py.endswith (a ++ suf) suf = true.
Proof.
  unfold Py.endswith. rewrite string_length_app.
  replace (String.length a + String.length suf - String.length suf)%nat
    with (String.length a) by lia.
  rewrite substring_app_right, String.eqb_refl.
  apply andb_true_intro. split; [apply Nat.leb_le; lia|reflexivity].
Qed.

Lemma endswith_split (s suf : string) :
  Py.endswith s suf = true ->
  s = String.substring 0 (String.length s - String.length suf) s ++ suf.
Proof.
  unfold Py.endswith. intros H. apply andb_prop in H. destruct H as [Hl He].
  apply Nat.leb_le in Hl. apply String.eqb_eq in He.
  rewrite (substring_split s (String.length s - String.length suf)) at 1
    by lia.
  f_equal.
  replace (String.length s - (String.length s - String.length suf))%nat
    with (String.length suf) by lia.
  exact He.
Qed.

(** [s[:-2] + ",\n"] is [s] when [s] ends with [",\n"]. *)
Lemma drop_last2_comma (s : string) :
  Py.endswith s ("," ++ Py.nl) = true ->
  s = Py.drop_last2 s ++ "," ++ Py.nl.
Proof. intros H. apply endswith_split in H. exact H. Qed.

Lemma drop_trailing_comma_nonempty (a : string) :
  nonempty a = true -> nonempty (drop_trailing_comma a) = true.
Proof.
  unfold drop_trailing_comma. intros H.
  destruct (Py.endswith a ("," ++ Py.nl)); [|exact H].
  destruct (Py.drop_last2 a); reflexivity.
Qed.

(** One comma is removed: the fixed line still ends with [",\n"] only if the
    line ended with two commas. *)
Lemma drop_trailing_comma_single (a : string) :
  Py.endswith a (",," ++ Py.nl) = false ->
  Py.endswith (drop_trailing_comma a) ("," ++ Py.nl) = false.
Proof.
  unfold drop_trailing_comma. intros H2.
  destruct (Py.endswith a ("," ++ Py.nl)) eqn:H1; [|exact H1].
  destruct (Py.endswith (Py.drop_last2 a ++ Py.nl) ("," ++ Py.nl)) eqn:H3;
    [|reflexivity].
  apply endswith_split in H3.
  set (z := String.substring 0
              (String.length (Py.drop_last2 a ++ Py.nl)
               - String.length ("," ++ Py.nl))
              (Py.drop_last2 a ++ Py.nl)) in H3.
  assert (Hx : Py.drop_last2 a = z ++ ",").
  { apply (string_app_inj_tail _ _ Py.LF).
    rewrite string_app_assoc. exact H3. }
  apply drop_last2_comma in H1. rewrite Hx in H1.
  rewrite string_app_assoc in H1.
  assert (Hends : Py.endswith a (",," ++ Py.nl) = true).
  { rewrite H1. apply (endswith_app z (",," ++ Py.nl)). }
  congruence.
Qed.

(** ** Characters that the rewrites cannot bring in *)

Lemma occurs_app (c : ascii) (a b : string) :
  occurs c (a ++ b) = occurs c a || occurs c b.
Proof.
  induction a as [|x a IH]; simpl; [reflexivity|].
  now rewrite IH, orb_assoc.
Qed.

Lemma occurs_replace_aux (c : ascii) (old new : string) :
  occurs c new = false ->
  forall s k, occurs c s = false ->
              occurs c (Py.replace_aux old new k s) = false.
Proof.
  intros Hn. induction s as [|x s IH]; intros k Hs; [reflexivity|].
  simpl in Hs. apply orb_false_elim in Hs. destruct Hs as [Hx Hs].
  cbn [Py.replace_aux]. destruct k; [|auto].
  destruct (String.prefix old (String x s)).
  - rewrite occurs_app, Hn. simpl. auto.
  - simpl. rewrite Hx. simpl. auto.
Qed.

Lemma occurs_replace (c : ascii) (s old new : string) :
  occurs c new = false -> occurs c s = false ->
  occurs c (Py.replace s old new) = false.
Proof. intros Hn Hs. apply occurs_replace_aux; assumption. Qed.

(** Replacing a character removes it. *)
Lemma occurs_replace_char (c : ascii) (s new : string) :
  occurs c new = false ->
  occurs c (Py.replace s (String c EmptyString) new) = false.
Proof.
  intros Hn. unfold Py.replace.
  induction s as [|x s IH]; [reflexivity|].
  cbn [Py.replace_aux]. simpl String.prefix.
  destruct (ascii_dec c x) as [->|Hne].
  - assert (Hp : String.prefix EmptyString s = true) by (destruct s; reflexivity).
    rewrite Hp. rewrite occurs_app, Hn. simpl. exact IH.
  - simpl. rewrite IH, orb_false_r.
    apply Ascii.eqb_neq. exact Hne.
Qed.

Lemma occurs_lstrip (c : ascii) (s : string) :
  occurs c s = false -> occurs c (Py.lstrip s) = false.
Proof.
  induction s as [|x s IH]; intros H; [reflexivity|].
  simpl. destruct (Py.isspace x); [|exact H].
  simpl in H. apply orb_false_elim in H. tauto.
Qed.

Lemma occurs_rstrip (c : ascii) (s : string) :
  occurs c s = false -> occurs c (Py.rstrip s) = false.
Proof.
  induction s as [|x s IH]; intros H; [reflexivity|].
  simpl in H. apply orb_false_elim in H. destruct H as [Hx Hs].
  specialize (IH Hs). simpl.
  destruct (Py.rstrip s) as [|y r].
  - destruct (Py.isspace x); simpl; [reflexivity|].
    rewrite Hx. reflexivity.
  - cbn [occurs]. cbn [occurs] in IH. rewrite Hx, IH. reflexivity.
Qed.

Lemma occurs_substring (c : ascii) (s : string) :
  occurs c s = false ->
  forall n m, occurs c (String.substring n m s) = false.
Proof.
  induction s as [|x s IH]; intros H n m.
  - destruct n, m; reflexivity.
  - simpl in H. apply orb_false_elim in H. destruct H as [Hx Hs].
    destruct n as [|n]; [destruct m as [|m]|]; simpl; auto.
    rewrite Hx. simpl. auto.
Qed.

Lemma token_rewrite_no_tab (raw : string) :
  occurs Py.TAB (token_rewrite raw) = false.
Proof.
  unfold token_rewrite.
  assert (Hhead : occurs Py.TAB (rewrite_head raw) = false).
  { unfold rewrite_head.
    repeat (apply occurs_replace; [reflexivity|]).
    rewrite occurs_app. apply orb_false_intro; [|reflexivity].
    unfold Py.strip. apply occurs_rstrip, occurs_lstrip.
    apply occurs_replace_char. reflexivity. }
  set (h := rewrite_head raw) in *. clearbody h.
  assert (Hbool : occurs Py.TAB (rewrite_boolean h) = false).
  { unfold rewrite_boolean.
    repeat match goal with
           | |- context [if ?b then _ else _] => destruct b
           end;
      repeat (apply occurs_replace; [reflexivity|]); exact Hhead. }
  set (b := rewrite_boolean h) in *. clearbody b.
  assert (Htypes : occurs Py.TAB (rewrite_types b) = false).
  { unfold rewrite_types.
    repeat (apply occurs_replace; [reflexivity|]). exact Hbool. }
  set (t := rewrite_types b) in *. clearbody t.
  unfold patch_missing_datatype.
  repeat match goal with
         | |- context [if ?b then _ else _] => destruct b
         end; try exact Htypes.
  unfold Py.slice_to, Py.slice_from.
  rewrite !occurs_app, !occurs_substring by exact Htypes. reflexivity.
Qed.

(** Line 263 never fires on a queued line: line 265 writes the table name
    and the rewritten line, its final [",\n"] turned into [";\n"]. *)
Lemma alter_line_rewritten (name raw : string) :
  alter_line (mk_fk name (token_rewrite raw))
  = "ALTER TABLE " ++ name ++ " ADD " ++
    (if Py.endswith (token_rewrite raw) ("," ++ Py.nl)
     then Py.drop_last2 (token_rewrite raw) ++ ";" ++ Py.nl
     else token_rewrite raw).
Proof.
  unfold alter_line. cbn [fk table_name].
  assert (Hs : Py.startswith (token_rewrite raw) (String Py.TAB EmptyString)
               = false).
  { pose proof (token_rewrite_no_tab raw) as H.
    unfold Py.startswith. destruct (token_rewrite raw) as [|x l];
      [reflexivity|].
    cbn [occurs] in H. apply orb_false_elim in H. destruct H as [Hx _].
    apply prefix_head_differs. exact Hx. }
  rewrite Hs. reflexivity.
Qed.

(** ** Lines free of the rewritten tokens *)



(** * Facts about the main loop *)

Lemma consistent_init : consistent init.
Proof. repeat split; try reflexivity. constructor. Qed.

Lemma queue_extends_refl (s : state) : queue_extends s s.
Proof. exists []. symmetry. apply app_nil_r. Qed.

Lemma queue_extends_trans (s1 s2 s3 : state) :
  queue_extends s1 s2 -> queue_extends s2 s3 -> queue_extends s1 s3.
Proof.
  intros [a Ha] [b Hb]. exists (a ++ b)%list. rewrite Hb, Ha. symmetry.
  apply app_assoc.
Qed.

Lemma consistent_open_table (s : state) (line : string) :
  consistent s -> consistent (open_table s line).
Proof.
  intros (H1 & H2 & H3). unfold open_table.
  destruct (Py.startswith line CONST_CREATE_TABLE); [|repeat split; assumption].
  repeat split; simpl; try assumption. discriminate.
Qed.

Lemma consistent_capture (s : state) (line : string) :
  consistent s -> consistent (fst (capture_foreign_key s line)).
Proof.
  intros (H1 & H2 & H3). unfold capture_foreign_key.
  destruct (captures s line) eqn:Hc; [|repeat split; assumption].
  repeat split; simpl; try assumption.
  apply Forall_app. split; [assumption|]. constructor; [|constructor].
  simpl. apply nonempty_true. unfold captures in Hc.
  apply andb_prop in Hc. tauto.
Qed.

Lemma consistent_same (s s' : state) :
  foundTable s' = foundTable s ->
  currentTableName s' = currentTableName s ->
  tableCount s' = tableCount s ->
  a_line s' = a_line s ->
  fk_buffer s' = fk_buffer s ->
  consistent s -> consistent s'.
Proof.
  unfold consistent. intros -> -> -> -> ->. tauto.
Qed.

Lemma consistent_finalize (s : state) :
  consistent s -> consistent (finalize s).
Proof.
  intros (H1 & H2 & H3).
  repeat split; simpl; intros; try discriminate; assumption.
Qed.

Lemma consistent_route (s : state) (line : string) :
  consistent s -> consistent (state_of (route s line)).
Proof.
  intros H. unfold route.
  repeat match goal with
         | |- context [if ?b then _ else _] => destruct b
         | |- context [match a_line s with _ => _ end] => destruct (a_line s)
         end; simpl;
    try (apply consistent_finalize);
    try (eapply consistent_same; [reflexivity..|exact H]).
Qed.

Lemma consistent_step (s : state) (raw : string) :
  consistent s -> consistent (state_of (step s raw)).
Proof.
  intros H. unfold step, step_rewritten.
  pose proof (consistent_capture (open_table s (token_rewrite raw))
                (token_rewrite raw) (consistent_open_table _ _ H)) as Hc.
  destruct (capture_foreign_key (open_table s (token_rewrite raw))
              (token_rewrite raw)) as [s2 line2].
  apply consistent_route. simpl in Hc.
  destruct Hc as (H1 & H2 & H3). repeat split; assumption.
Qed.

Lemma consistent_process (lines : list string) (s : state) :
  consistent s -> consistent (state_of (process s lines)).
Proof.
  revert s. induction lines as [|raw rest IH]; intros s H; [exact H|].
  simpl. pose proof (consistent_step s raw H) as Hs.
  destruct (step s raw) as [s'|s']; [apply IH|]; exact Hs.
Qed.

Lemma reachable_consistent (lines : list string) (s : state) :
  process init lines = Finished s -> consistent s.
Proof.
  intros H. pose proof (consistent_process lines init consistent_init) as Hc.
  rewrite H in Hc. exact Hc.
Qed.

Lemma process_app (a b : list string) (s : state) :
  process s (a ++ b)%list =
  match process s a with
  | Finished s' => process s' b
  | NameError s' => NameError s'
  end.
Proof.
  revert s. induction a as [|raw a IH]; intros s; [reflexivity|].
  simpl. destruct (step s raw); [apply IH|reflexivity].
Qed.

Lemma queue_extends_route (s s' : state) (line : string) :
  route s line = Finished s' -> queue_extends s s'.
Proof.
  unfold route. intros H.
  repeat match type of H with
         | context [if ?b then _ else _] => destruct b
         | context [match a_line s with _ => _ end] => destruct (a_line s)
         end;
    inversion H; subst; exists []; simpl; symmetry; apply app_nil_r.
Qed.

Lemma queue_extends_step (s s' : state) (raw : string) :
  step s raw = Finished s' -> queue_extends s s'.
Proof.
  unfold step, step_rewritten, capture_foreign_key. intros H.
  set (line := token_rewrite raw) in *.
  assert (Ho : queue_extends s (open_table s line)).
  { unfold open_table. destruct (Py.startswith line CONST_CREATE_TABLE);
      exists []; simpl; symmetry; apply app_nil_r. }
  destruct (captures (open_table s line) line).
  - apply queue_extends_route in H.
    eapply queue_extends_trans; [exact Ho|].
    eapply queue_extends_trans; [|exact H].
    eexists. simpl. reflexivity.
  - apply queue_extends_route in H.
    eapply queue_extends_trans; [exact Ho|exact H].
Qed.

Lemma queue_extends_process (lines : list string) (s s' : state) :
  process s lines = Finished s' -> queue_extends s s'.
Proof.
  revert s. induction lines as [|raw rest IH]; intros s H.
  - inversion H. apply queue_extends_refl.
  - simpl in H. destruct (step s raw) as [s1|s1] eqn:Hs; [|discriminate].
    eapply queue_extends_trans; [eapply queue_extends_step; exact Hs|].
    apply IH. exact H.
Qed.

(** ** Lines of an open table block *)

Lemma open_table_keeps (s : state) (line : string) :
  output (open_table s line) = output s /\
  fk_buffer (open_table s line) = fk_buffer s.
Proof.
  unfold open_table.
  destruct (Py.startswith line CONST_CREATE_TABLE); simpl; auto.
Qed.

Lemma open_table_stays_open (s : state) (line : string) :
  foundTable s = true -> foundTable (open_table s line) = true.
Proof.
  unfold open_table.
  destruct (Py.startswith line CONST_CREATE_TABLE); simpl; auto.
Qed.

Lemma open_table_opens (s : state) (line : string) :
  Py.startswith line CONST_CREATE_TABLE = true ->
  foundTable (open_table s line) = true.
Proof. unfold open_table. intros ->. reflexivity. Qed.

Lemma open_table_other (s : state) (line : string) :
  Py.startswith line CONST_CREATE_TABLE = false -> open_table s line = s.
Proof. unfold open_table. intros ->. reflexivity. Qed.

Lemma mark_trigger_view_other (s : state) (line : string) :
  Py.startswith line CONST_CREATE_TRIGGER_START = false ->
  Py.startswith line CONST_CREATE_VIEW_START = false ->
  mark_trigger_view s line = s.
Proof.
  intros Ht Hv. unfold mark_trigger_view. rewrite Ht, Hv.
  destruct s; reflexivity.
Qed.

(** Lines 150-184 on a line of an open block that does not finalize it: the
    line goes to the queue and an empty string to the buffer, or the line
    itself goes to the buffer; nothing is written. *)
Lemma step_in_table (s : state) (line : string) :
  let opened := open_table s line in
  foundTable opened = true ->
  captures opened line = true \/ Py.startswith line TERMINATOR = false ->
  exists s',
    step_rewritten s line = Finished s' /\
    foundTable s' = true /\
    output s' = output s /\
    fk_buffer s' =
      (fk_buffer s ++
       if captures opened line
       then [mk_fk (currentTableName opened) line] else [])%list /\
    buffer s' =
      (buffer opened ++ [if captures opened line then EmptyString else line])%list.
Proof.
  intros opened Hopen Hkeep.
  destruct (open_table_keeps s line) as (Hout & Hfk).
  change (open_table s line) with opened in Hout, Hfk.
  unfold step_rewritten, capture_foreign_key. fold opened.
  destruct (captures opened line) eqn:Hc.
  - unfold route. cbn [mark_trigger_view foundTable]. rewrite Hopen.
    eexists. split; [reflexivity|]. simpl.
    repeat split; congruence.
  - destruct Hkeep as [H|Hterm]; [discriminate|].
    unfold route. cbn [mark_trigger_view foundTable]. rewrite Hopen, Hterm.
    eexists. split; [reflexivity|]. simpl.
    rewrite app_nil_r. repeat split; congruence.
Qed.

(** An open block stays open, and silent, until a line starts with [);]. *)
Lemma process_in_table (rest : list string) (s : state) :
  foundTable s = true ->
  Forall (fun raw => Py.startswith (token_rewrite raw) TERMINATOR = false)
         rest ->
  exists s',
    process s rest = Finished s' /\ foundTable s' = true /\
    output s' = output s /\ queue_extends s s'.
Proof.
  revert s. induction rest as [|raw rest IH]; intros s Hopen Hall.
  - exists s. repeat split; auto. apply queue_extends_refl.
  - inversion Hall as [|? ? Hraw Hrest]; subst.
    destruct (step_in_table s (token_rewrite raw)) as (s1 & Hs1 & Ht1 & Ho1 & Hq1 & _).
    + apply open_table_stays_open. exact Hopen.
    + right. exact Hraw.
    + destruct (IH s1 Ht1 Hrest) as (s' & Hs' & Ht' & Ho' & Hq').
      exists s'. simpl. unfold step. rewrite Hs1.
      repeat split; try assumption; try congruence.
      eapply queue_extends_trans; [|exact Hq'].
      eexists. exact Hq1.
Qed.

(** A line that starts with [);] and is not queued as a foreign key closes
    the open block: it is buffered and the block is finalized. *)
Lemma step_terminator (s : state) (line : string) :
  foundTable s = true ->
  Py.startswith line TERMINATOR = true ->
  captures s line = false ->
  step_rewritten s line
  = Finished (finalize (set_buffer s (buffer s ++ [line]))).
Proof.
  intros Hopen Hterm Hc. unfold step_rewritten.
  rewrite open_table_other
    by (eapply startswith_exclusive; try exact Hterm; reflexivity).
  unfold capture_foreign_key. rewrite Hc.
  rewrite mark_trigger_view_other
    by (eapply startswith_exclusive; try exact Hterm; reflexivity).
  unfold route. rewrite Hopen, Hterm. reflexivity.
Qed.

(** ** The trailing-comma scan (lines 229-234) *)

Lemma fix_comma_reversed_spec (skipped : list string) (content : string)
  (rest : list string) :
  Forall (fun a => is_content a = false) skipped ->
  is_content content = true ->
  fix_comma_reversed (skipped ++ content :: rest)
  = (skipped ++ drop_trailing_comma content :: rest)%list.
Proof.
  intros Hs Hc. induction Hs as [|a skipped Ha Hs IH]; simpl.
  - rewrite Hc. reflexivity.
  - rewrite Ha, IH. reflexivity.
Qed.

Lemma fix_comma_reversed_none (skipped : list string) :
  Forall (fun a => is_content a = false) skipped ->
  fix_comma_reversed skipped = skipped.
Proof.
  intros Hs. induction Hs as [|a skipped Ha Hs IH]; simpl; [reflexivity|].
  rewrite Ha, IH. reflexivity.
Qed.

Lemma fix_trailing_comma_spec (before : list string) (content : string)
  (after : list string) :
  is_content content = true ->
  Forall (fun a => is_content a = false) after ->
  fix_trailing_comma (before ++ content :: after)
  = (before ++ drop_trailing_comma content :: after)%list.
Proof.
  intros Hc Ha. unfold fix_trailing_comma.
  rewrite rev_app_distr. simpl. rewrite <- app_assoc. simpl.
  rewrite fix_comma_reversed_spec; [|apply Forall_rev; exact Ha|exact Hc].
  rewrite rev_app_distr. simpl. rewrite !rev_involutive, <- app_assoc.
  reflexivity.
Qed.

(** A block without any content line is left as it is. *)
Lemma fix_trailing_comma_none (buf : list string) :
  Forall (fun a => is_content a = false) buf ->
  fix_trailing_comma buf = buf.
Proof.
  intros H. unfold fix_trailing_comma.
  rewrite fix_comma_reversed_none by (apply Forall_rev; exact H).
  apply rev_involutive.
Qed.

Lemma written_app (a b : list string) :
  written (a ++ b) = (written a ++ written b)%list.
Proof. apply filter_app. Qed.

(** ** Runs that cannot raise *)

Lemma scan_primary_key_length (buf : list string) :
  List.length (snd (scan_primary_key buf)) = List.length buf.
Proof.
  induction buf as [|a buf IH]; simpl; [reflexivity|].
  destruct (autoincrement_key a); simpl; [reflexivity|].
  destruct (scan_primary_key buf) as [name rest']. simpl in *. now rewrite IH.
Qed.

Lemma rewrite_key_field_length (name : string) (buf : list string) :
  List.length (rewrite_key_field name buf) = List.length buf.
Proof.
  induction buf as [|a buf IH]; simpl; [reflexivity|].
  destruct (Py.find a name >=? 0); simpl; [reflexivity|]. now rewrite IH.
Qed.

Lemma rewrite_primary_key_length (buf : list string) :
  List.length (rewrite_primary_key buf) = List.length buf.
Proof.
  unfold rewrite_primary_key.
  pose proof (scan_primary_key_length buf) as H.
  destruct (scan_primary_key buf) as [name buf']. simpl in H.
  destruct (nonempty name); [rewrite rewrite_key_field_length|]; exact H.
Qed.

Lemma fix_comma_reversed_length (rbuf : list string) :
  List.length (fix_comma_reversed rbuf) = List.length rbuf.
Proof.
  induction rbuf as [|a rbuf IH]; simpl; [reflexivity|].
  destruct (is_content a); simpl; [reflexivity|]. now rewrite IH.
Qed.

Lemma fix_trailing_comma_length (buf : list string) :
  List.length (fix_trailing_comma buf) = List.length buf.
Proof.
  unfold fix_trailing_comma.
  now rewrite length_rev, fix_comma_reversed_length, length_rev.
Qed.

Lemma finalize_binds (s : state) (line : string) :
  a_line (finalize (set_buffer s (buffer s ++ [line]))) <> None.
Proof.
  simpl.
  pose proof (fix_trailing_comma_length
                (rewrite_primary_key (buffer s ++ [line]))) as H.
  rewrite rewrite_primary_key_length, length_app in H. simpl in H.
  destruct (fix_trailing_comma (rewrite_primary_key (buffer s ++ [line]))).
  - simpl in H. lia.
  - discriminate.
Qed.

Lemma bound_or_open_same (s s' : state) :
  foundTable s' = foundTable s -> a_line s' = a_line s ->
  bound_or_open s -> bound_or_open s'.
Proof. unfold bound_or_open. intros -> ->. tauto. Qed.

Lemma route_total (s : state) (line : string) :
  bound_or_open s ->
  exists s', route s line = Finished s' /\ bound_or_open s'.
Proof.
  intros H. unfold route.
  destruct (foundTable s) eqn:Ht.
  - destruct (Py.startswith line TERMINATOR).
    + eexists. split; [reflexivity|]. right. apply finalize_binds.
    + eexists. split; [reflexivity|]. left. exact Ht.
  - destruct H as [H|H]; [congruence|].
    destruct (a_line s) as [a|] eqn:Ha; [|congruence].
    assert (Hb : bound_or_open s) by (right; congruence).
    repeat match goal with
           | |- context [if ?b then _ else _] => destruct b
           end;
      eexists; (split; [reflexivity|]);
      (eapply bound_or_open_same; [| |exact Hb]; reflexivity).
Qed.

Lemma step_total (s : state) (raw : string) :
  bound_or_open s ->
  exists s', step s raw = Finished s' /\ bound_or_open s'.
Proof.
  intros H. unfold step, step_rewritten, capture_foreign_key.
  set (line := token_rewrite raw).
  assert (Ho : bound_or_open (open_table s line)).
  { unfold open_table. destruct (Py.startswith line CONST_CREATE_TABLE);
      [left; reflexivity|exact H]. }
  destruct (captures (open_table s line) line); apply route_total;
    (eapply bound_or_open_same; [| |exact Ho]; reflexivity).
Qed.

Lemma process_total (lines : list string) (s : state) :
  bound_or_open s ->
  exists s', process s lines = Finished s' /\ bound_or_open s'.
Proof.
  revert s. induction lines as [|raw rest IH]; intros s H.
  - exists s. split; [reflexivity|exact H].
  - destruct (step_total s raw H) as (s1 & Hs1 & H1).
    simpl. rewrite Hs1. apply IH. exact H1.
Qed.

(** * Foreign keys (lines 159-162 and 260-265) *)

(** C1, as the code has it.  A foreign-key line processed while a block with
    a non-empty table name is open is taken out of the block (an empty string
    is buffered in its place and nothing is written), and is queued once,
    behind the constraints met before it.  The run then completes, and after
    everything the main loop wrote it writes one line per queued entry in
    queue order, then [COMMIT]; the line for this entry is
    [ALTER TABLE <table> ADD <constraint>], with a final [",\n"] of the
    constraint turned into [";\n"]. *)
Theorem foreign_key_deferred
  (pre : list string) (raw : string) (post : list string) (s : state) :
  let line := token_rewrite raw in
  let opened := open_table s line in
  let entry := mk_fk (currentTableName opened) line in
  process init pre = Finished s ->
  (Py.find line CONST_FOREIGN_KEY >=? 0) = true ->
  nonempty (currentTableName opened) = true ->
  exists s1 sN later,
    foundTable opened = true /\
    step s raw = Finished s1 /\
    fk_buffer s1 = (fk_buffer s ++ [entry])%list /\
    buffer s1 = (buffer opened ++ [EmptyString])%list /\
    output s1 = output s /\
    process s1 post = Finished sN /\
    fk_buffer sN = (fk_buffer s ++ entry :: later)%list /\
    run (pre ++ raw :: post)%list
    = Completed (output sN
                 ++ map alter_line (fk_buffer s)
                 ++ [alter_line entry]
                 ++ map alter_line later
                 ++ [COMMIT]) /\
    alter_line entry
    = "ALTER TABLE " ++ currentTableName opened ++ " ADD " ++
      (if Py.endswith line ("," ++ Py.nl)
       then Py.drop_last2 line ++ ";" ++ Py.nl
       else line).
Proof.
  intros line opened entry Hpre Hfk Hname.
  assert (Hcons : consistent opened).
  { apply consistent_open_table. exact (reachable_consistent _ _ Hpre). }
  assert (Hopen : foundTable opened = true).
  { destruct Hcons as (H1 & _). destruct (foundTable opened); [reflexivity|].
    rewrite (H1 eq_refl) in Hname. discriminate. }
  assert (Hc : captures opened line = true).
  { unfold captures. rewrite Hfk, Hname. reflexivity. }
  destruct (step_in_table s line) as (s1 & Hs1 & Ht1 & Ho & Hq & Hb).
  - exact Hopen.
  - left. exact Hc.
  - fold opened in Hq, Hb. rewrite Hc in Hq, Hb. fold entry in Hq.
    destruct (process_total post s1 (or_introl Ht1)) as (sN & HN & _).
    destruct (queue_extends_process _ _ _ HN) as [later Hlater].
    exists s1, sN, later. unfold step. fold line.
    repeat split; try assumption.
    + rewrite Hlater, Hq, <- app_assoc. reflexivity.
    + unfold run. rewrite process_app, Hpre. simpl. unfold step.
      fold line. rewrite Hs1, HN, Hlater, Hq.
      rewrite !map_app. simpl. rewrite <- !app_assoc. reflexivity.
    + apply alter_line_rewritten.
Qed.

Lemma foreign_key_deferred_witness :
  exists s1 sN later,
    foundTable
      (open_table
         (state_of (process init (dump ["CREATE TABLE IF NOT EXISTS rental ("])))
         (token_rewrite (ln "  FOREIGN KEY (cust_id) REFERENCES customer(id),")))
    = true /\
    step (state_of (process init (dump ["CREATE TABLE IF NOT EXISTS rental ("])))
         (ln "  FOREIGN KEY (cust_id) REFERENCES customer(id),")
    = Finished s1 /\
    fk_buffer s1 =
      [mk_fk "rental" (ln "FOREIGN KEY (cust_id) REFERENCES customer(id),")] /\
    buffer s1 = [ln "CREATE TABLE IF NOT EXISTS rental ("; EmptyString] /\
    output s1 = [] /\
    process s1 (dump [");"; "INSERT INTO rental VALUES(1);"]) = Finished sN /\
    fk_buffer sN =
      mk_fk "rental" (ln "FOREIGN KEY (cust_id) REFERENCES customer(id),")
      :: later /\
    run (dump ["CREATE TABLE IF NOT EXISTS rental (";
               "  FOREIGN KEY (cust_id) REFERENCES customer(id),";
               ");"; "INSERT INTO rental VALUES(1);"])
    = Completed
        (output sN ++ []
         ++ [alter_line
               (mk_fk "rental"
                  (ln "FOREIGN KEY (cust_id) REFERENCES customer(id),"))]
         ++ map alter_line later ++ [COMMIT]) /\
    alter_line
      (mk_fk "rental" (ln "FOREIGN KEY (cust_id) REFERENCES customer(id),"))
    = ln "ALTER TABLE rental ADD FOREIGN KEY (cust_id) REFERENCES customer(id);".
Proof.
  apply (foreign_key_deferred
           (dump ["CREATE TABLE IF NOT EXISTS rental ("])
           (ln "  FOREIGN KEY (cust_id) REFERENCES customer(id),")
           (dump [");"; "INSERT INTO rental VALUES(1);"])
           (state_of (process init (dump ["CREATE TABLE IF NOT EXISTS rental ("]))));
    reflexivity.
Defined.

(** The claim as the spec words it fails for a block without a table name:
    the foreign-key line is processed while the block is open, stays in the
    block, and the run writes no [ALTER TABLE] line at all. *)
Lemma foreign_key_always_deferred_fails :
  run (dump ["CREATE TABLE orders ("; "cust_id INTEGER,";
             "FOREIGN KEY (cust_id) REFERENCES customer(id)"; ");"])
  = Completed (dump ["CREATE TABLE orders ("; "cust_id INTEGER,";
                     "FOREIGN KEY (cust_id) REFERENCES customer(id)"; ");";
                     "COMMIT;"]).
Proof. vm_compute. reflexivity. Qed.

(** C9, as the code has it.  Line 160 queues a foreign key only under a
    non-empty table name.  A foreign-key line of an open block whose extracted
    name is empty is not queued and gets no [ALTER TABLE] line: at any point
    of a run every queued entry, and so every [ALTER TABLE] line written, has
    a non-empty table name.  The line is not taken out of the block: unless
    it starts with [);] it is appended to the buffer unchanged, as any other
    line of the block, and nothing is written at that point; if it starts
    with [);] it is buffered and closes the block as any terminator does.
    What is later written of it is the work of the finalization, as for any
    buffered line. *)
Theorem empty_table_name_not_queued
  (pre : list string) (raw : string) (s : state) :
  let line := token_rewrite raw in
  let opened := open_table s line in
  process init pre = Finished s ->
  (Py.find line CONST_FOREIGN_KEY >=? 0) = true ->
  foundTable opened = true ->
  currentTableName opened = EmptyString ->
  (exists s',
     step s raw = Finished s' /\
     fk_buffer s' = fk_buffer s /\
     (Py.startswith line TERMINATOR = false ->
      foundTable s' = true /\
      buffer s' = (buffer opened ++ [line])%list /\
      output s' = output s) /\
     (Py.startswith line TERMINATOR = true ->
      foundTable s' = false /\
      buffer s'
      = fix_trailing_comma (rewrite_primary_key (buffer opened ++ [line])) /\
      output s' = (output s ++ written (buffer s'))%list)) /\
  (forall post sN,
     process init (pre ++ raw :: post)%list = Finished sN ->
     Forall (fun e => table_name e <> EmptyString) (fk_buffer sN) /\
     run (pre ++ raw :: post)%list
     = Completed (output sN ++ map alter_line (fk_buffer sN) ++ [COMMIT])).
Proof.
  intros line opened Hpre Hfk Hopen Hname. split.
  - assert (Hc : captures opened line = false).
    { unfold captures. rewrite Hname. apply andb_false_r. }
    destruct (Py.startswith line TERMINATOR) eqn:Hterm.
    + assert (Hsame : opened = s).
      { apply open_table_other.
        eapply startswith_exclusive; try exact Hterm; reflexivity. }
      unfold opened in *. rewrite Hsame in *.
      eexists. split; [apply step_terminator; assumption|].
      split; [reflexivity|]. split; [discriminate|].
      intros _. repeat split.
    + destruct (step_in_table s line) as (s' & Hs' & Ht & Ho & Hq & Hb).
      * exact Hopen.
      * right. exact Hterm.
      * fold opened in Hq, Hb. rewrite Hc in Hq, Hb.
        rewrite app_nil_r in Hq.
        exists s'. unfold step. fold line.
        split; [exact Hs'|]. split; [exact Hq|].
        split; [auto|discriminate].
  - intros post sN HN. split.
    + apply (reachable_consistent _ _ HN).
    + unfold run. rewrite HN. reflexivity.
Qed.

Lemma empty_table_name_not_queued_witness :
  exists s',
    step (state_of (process init (dump ["CREATE TABLE t ("; "id INTEGER,"])))
         (ln "FOREIGN KEY (id) REFERENCES u(id)")
    = Finished s' /\
    fk_buffer s' = [] /\
    (Py.startswith (token_rewrite (ln "FOREIGN KEY (id) REFERENCES u(id)"))
                   TERMINATOR = false ->
     foundTable s' = true /\
     buffer s' = [ln "CREATE TABLE t ("; ln "id INTEGER,";
                  ln "FOREIGN KEY (id) REFERENCES u(id)"] /\
     output s' = []) /\
    (Py.startswith (token_rewrite (ln "FOREIGN KEY (id) REFERENCES u(id)"))
                   TERMINATOR = true ->
     foundTable s' = false /\
     buffer s'
     = fix_trailing_comma
         (rewrite_primary_key
            [ln "CREATE TABLE t ("; ln "id INTEGER,";
             ln "FOREIGN KEY (id) REFERENCES u(id)"]) /\
     output s' = ([] ++ written (buffer s'))%list).
Proof.
  apply (empty_table_name_not_queued
           (dump ["CREATE TABLE t ("; "id INTEGER,"])
           (ln "FOREIGN KEY (id) REFERENCES u(id)")
           (state_of (process init (dump ["CREATE TABLE t ("; "id INTEGER,"]))));
    reflexivity.
Defined.

(** The claim as the spec words it fails: the block has no table name, its
    foreign key is written inside the block and no [ALTER TABLE] follows. *)
Lemma empty_table_name_still_deferred_fails :
  run (dump ["CREATE TABLE t ("; "id INTEGER,";
             "FOREIGN KEY (id) REFERENCES u(id)"; ");"])
  = Completed (dump ["CREATE TABLE t ("; "id INTEGER,";
                     "FOREIGN KEY (id) REFERENCES u(id)"; ");"; "COMMIT;"])
  /\ get_table_name (ln "CREATE TABLE t (") = EmptyString.
Proof. vm_compute. split; reflexivity. Qed.

(** * Data lines (lines 122-145 and 258) *)




(** * The boolean rewrite (lines 127-132) *)

(** The stage of lines 127-132 on a line that holds [BOOLEAN]: the keyword is
    renamed to [INTEGER] and none is left.  If the renamed line holds [TRUE],
    every [TRUE] becomes [1] and [FALSE] is not looked at; only when it
    holds no [TRUE] and holds [FALSE] does [FALSE] become [0]. *)
Lemma rewrite_boolean_stage (line : string) :
  (Py.find line CONST_DATATYPE_BOOLEAN >=? 0) = true ->
  let renamed :=
    Py.replace line CONST_DATATYPE_BOOLEAN CONST_DATATYPE_INTEGER in
  Py.find (rewrite_boolean line) CONST_DATATYPE_BOOLEAN = -1 /\
  ((Py.find renamed CONST_BOOL_TRUE >=? 0) = true ->
   rewrite_boolean line = Py.replace renamed CONST_BOOL_TRUE "1" /\
   Py.find (rewrite_boolean line) CONST_BOOL_TRUE = -1) /\
  ((Py.find renamed CONST_BOOL_TRUE >=? 0) = false ->
   (Py.find renamed CONST_BOOL_FALSE >=? 0) = true ->
   rewrite_boolean line = Py.replace renamed CONST_BOOL_FALSE "0" /\
   Py.find (rewrite_boolean line) CONST_BOOL_FALSE = -1) /\
  ((Py.find renamed CONST_BOOL_TRUE >=? 0) = false ->
   (Py.find renamed CONST_BOOL_FALSE >=? 0) = false ->
   rewrite_boolean line = renamed).
Proof.
  intros Hb renamed.
  assert (Hren : Py.find renamed CONST_DATATYPE_BOOLEAN = -1)
    by (apply replace_removes; reflexivity).
  unfold rewrite_boolean. rewrite Hb. fold renamed.
  split; [|split; [|split]].
  - destruct (Py.find renamed CONST_BOOL_TRUE >=? 0).
    + apply replace_keeps_absent; [reflexivity|reflexivity|exact Hren].
    + destruct (Py.find renamed CONST_BOOL_FALSE >=? 0).
      * apply replace_keeps_absent; [reflexivity|reflexivity|exact Hren].
      * exact Hren.
  - intros Ht. rewrite Ht. split; [reflexivity|].
    apply replace_removes; reflexivity.
  - intros Ht Hf. rewrite Ht, Hf. split; [reflexivity|].
    apply replace_removes; reflexivity.
  - intros Ht Hf. rewrite Ht, Hf. reflexivity.
Qed.

(** With both literals on a line only [TRUE] is rewritten. *)
Example rewrite_boolean_true_first :
  rewrite_boolean (ln "a BOOLEAN CHECK (a IN (TRUE, FALSE)),")
  = ln "a INTEGER CHECK (a IN (1, FALSE)),".
Proof. vm_compute. reflexivity. Qed.

(** * Triggers and views (lines 167-172 and 249-256) *)

(** C3.  Lines 252 and 256 test [a_line], the last line of the last finalized
    table block, where the comments above them speak of the current line.
    After a block that ended with [);] the view test succeeds on the
    [CREATE VIEW] line itself, and the rest of the view is written. *)
Theorem view_body_is_written :
  run (dump ["CREATE TABLE IF NOT EXISTS t ("; "id INTEGER"; ");";
             "CREATE VIEW v AS"; "SELECT id"; "FROM t;"])
  = Completed (dump ["CREATE TABLE IF NOT EXISTS t ("; "id INTEGER"; ");";
                     "SELECT id"; "FROM t;"; "COMMIT;"]).
Proof. vm_compute. reflexivity. Qed.

(** C4.  For the same reason the trigger test never succeeds after a block
    that ended with [);]: [foundTrigger] stays set, and the lines that follow
    the trigger's [END;] are not written. *)
Theorem line_after_trigger_is_lost :
  run (dump ["CREATE TABLE IF NOT EXISTS t ("; "id INTEGER"; ");";
             "CREATE TRIGGER trg AFTER INSERT ON t"; "BEGIN";
             "UPDATE t SET id = 1;"; "END;";
             "INSERT INTO t VALUES(1);"])
  = Completed (dump ["CREATE TABLE IF NOT EXISTS t ("; "id INTEGER"; ");";
                     "COMMIT;"]).
Proof. vm_compute. reflexivity. Qed.

(** C10.  Some runs end in a [NameError].  When a line that starts with
    [CREATE TRIGGER] or [CREATE VIEW] is reached before any table block has
    been finalized ([tableCount] is still 0) and no table block is open, so
    that the trigger/view branch is the one evaluated, reading [a_line] raises
    on that very line: nothing is written for it, and the run stops with what
    had been written before, without the deferred constraints and without
    [COMMIT]. *)
Theorem name_error_before_first_table
  (pre : list string) (raw : string) (post : list string) (s : state) :
  process init pre = Finished s ->
  tableCount s = 0%nat ->
  foundTable s = false ->
  Py.startswith (token_rewrite raw) CONST_CREATE_TRIGGER_START = true \/
  Py.startswith (token_rewrite raw) CONST_CREATE_VIEW_START = true ->
  (exists s', step s raw = NameError s' /\ output s' = output s) /\
  run (pre ++ raw :: post)%list = Failed (output s).
Proof.
  intros Hpre Hcount Htable Hstart.
  destruct (reachable_consistent pre s Hpre) as (Hname & Hline & _).
  specialize (Hname Htable). specialize (Hline Hcount).
  assert (Hstep : exists s', step s raw = NameError s' /\ output s' = output s).
  { unfold step, step_rewritten. set (line := token_rewrite raw) in *.
    assert (Hnot : Py.startswith line CONST_CREATE_TABLE = false).
    { destruct Hstart as [H|H];
        eapply startswith_exclusive; try exact H; reflexivity. }
    unfold open_table. rewrite Hnot.
    unfold capture_foreign_key, captures. rewrite Hname.
    rewrite andb_false_r.
    unfold route. cbn [mark_trigger_view foundTable foundTrigger foundView
                         a_line]. rewrite Htable, Hline.
    destruct Hstart as [H|H]; rewrite H.
    - eexists. split; reflexivity.
    - destruct (if Py.startswith line CONST_CREATE_TRIGGER_START
                then true else foundTrigger s);
        eexists; split; reflexivity. }
  split; [exact Hstep|].
  destruct Hstep as (s' & Hs' & Hout).
  unfold run. rewrite process_app, Hpre. simpl. rewrite Hs'.
  rewrite Hout. reflexivity.
Qed.

Lemma name_error_before_first_table_witness :
  run (dump ["CREATE TRIGGER trg AFTER INSERT ON t"; "BEGIN"; "END;"])
  = Failed [].
Proof.
  exact (proj2 (name_error_before_first_table
                  [] (ln "CREATE TRIGGER trg AFTER INSERT ON t")
                  (dump ["BEGIN"; "END;"]) init
                  eq_refl eq_refl eq_refl (or_introl eq_refl))).
Defined.

(** * End of input inside a table block (lines 259-267) *)

(** C5, as the code has it.  When a line opens a table block and no later
    line starts with [);], the run is not fatal: the loop ends with the block
    still open, nothing of the block has been written, and the run completes
    with the deferred constraints and [COMMIT] after what was written before
    the block. *)
Theorem unterminated_table_completes
  (pre : list string) (opener : string) (rest : list string) (s : state) :
  process init pre = Finished s ->
  Py.startswith (token_rewrite opener) CONST_CREATE_TABLE = true ->
  Forall (fun raw => Py.startswith (token_rewrite raw) TERMINATOR = false)
         rest ->
  exists s' added,
    process init (pre ++ opener :: rest)%list = Finished s' /\
    foundTable s' = true /\
    output s' = output s /\
    fk_buffer s' = (fk_buffer s ++ added)%list /\
    run (pre ++ opener :: rest)%list =
    Completed (output s ++ map alter_line (fk_buffer s ++ added) ++ [COMMIT]).
Proof.
  intros Hpre Hopen Hrest.
  destruct (step_in_table s (token_rewrite opener))
    as (s1 & Hs1 & Ht1 & Ho1 & Hq1 & _).
  - apply open_table_opens. exact Hopen.
  - right. eapply startswith_exclusive; try exact Hopen; reflexivity.
  - destruct (process_in_table rest s1 Ht1 Hrest)
      as (s' & Hs' & Ht' & Ho' & Hq').
    assert (Hq : queue_extends s s').
    { eapply queue_extends_trans; [|exact Hq']. eexists. exact Hq1. }
    destruct Hq as [added Hadded].
    assert (Hrun : process init (pre ++ opener :: rest)%list = Finished s').
    { rewrite process_app, Hpre. simpl. unfold step. rewrite Hs1. exact Hs'. }
    exists s', added. repeat split; try assumption; try congruence.
    unfold run. rewrite Hrun, Hadded. congruence.
Qed.

Lemma unterminated_table_completes_witness :
  exists s' added,
    process init (dump ["CREATE TABLE IF NOT EXISTS t ("; "id INTEGER,";
                        "FOREIGN KEY (id) REFERENCES u(id)"])
    = Finished s' /\
    foundTable s' = true /\
    output s' = [] /\
    fk_buffer s' = added /\
    run (dump ["CREATE TABLE IF NOT EXISTS t ("; "id INTEGER,";
               "FOREIGN KEY (id) REFERENCES u(id)"])
    = Completed (map alter_line added ++ [COMMIT]).
Proof.
  apply (unterminated_table_completes
           [] (ln "CREATE TABLE IF NOT EXISTS t (")
           (dump ["id INTEGER,"; "FOREIGN KEY (id) REFERENCES u(id)"]) init).
  - reflexivity.
  - reflexivity.
  - repeat constructor.
Defined.

(** The claim as the spec words it fails: this run has an unterminated block,
    does not stop, and writes the deferred constraint and [COMMIT]. *)
Lemma unterminated_table_is_fatal_fails :
  run (dump ["CREATE TABLE IF NOT EXISTS t ("; "id INTEGER,";
             "FOREIGN KEY (id) REFERENCES u(id)"])
  = Completed [ln "ALTER TABLE t ADD FOREIGN KEY (id) REFERENCES u(id)";
               ln "COMMIT;"].
Proof. vm_compute. reflexivity. Qed.

(** * The finalized block (lines 185-243) *)

(** C6, as the code has it.  The line that starts with [);] closes the open
    block.  The scan from the end passes over empty (deleted) entries and the
    terminator and stops at the first other line: if that line ends with
    [",\n"] exactly that one comma is removed, otherwise the line is kept,
    and every other line of the block is untouched.  The block is written in
    order without its empty entries.  The line written before the terminator
    then ends with a comma only if it had ended with two. *)
Theorem trailing_comma_fixed
  (s : state) (raw : string) (before : list string) (content : string)
  (after : list string) :
  let line := token_rewrite raw in
  let fixed := drop_trailing_comma content in
  foundTable s = true ->
  Py.startswith line TERMINATOR = true ->
  captures s line = false ->
  rewrite_primary_key (buffer s ++ [line]) = (before ++ content :: after)%list ->
  is_content content = true ->
  Forall (fun a => is_content a = false) after ->
  exists s',
    step s raw = Finished s' /\
    foundTable s' = false /\
    buffer s' = (before ++ fixed :: after)%list /\
    output s' = (output s ++ written before ++ fixed :: written after)%list /\
    (Py.endswith content ("," ++ Py.nl) = true ->
     content = Py.drop_last2 content ++ "," ++ Py.nl /\
     fixed = Py.drop_last2 content ++ Py.nl) /\
    (Py.endswith content ("," ++ Py.nl) = false -> fixed = content) /\
    (Py.endswith content (",," ++ Py.nl) = false ->
     Py.endswith fixed ("," ++ Py.nl) = false).
Proof.
  intros line fixed Hopen Hterm Hcap Hbuf Hc Hafter. subst line.
  assert (Hfix : fix_trailing_comma
                   (rewrite_primary_key (buffer s ++ [token_rewrite raw]))
                 = (before ++ fixed :: after)%list).
  { rewrite Hbuf. apply fix_trailing_comma_spec; assumption. }
  assert (Hne : nonempty fixed = true).
  { apply drop_trailing_comma_nonempty. unfold is_content in Hc.
    apply andb_prop in Hc. tauto. }
  eexists. split; [apply step_terminator; assumption|].
  split; [reflexivity|].
  split; [exact Hfix|].
  split; [|split; [|split]].
  - cbn [finalize set_buffer output buffer]. rewrite Hfix, written_app.
    simpl. rewrite Hne. reflexivity.
  - intros He. split; [apply drop_last2_comma; exact He|].
    unfold fixed, drop_trailing_comma. rewrite He. reflexivity.
  - intros He. unfold fixed, drop_trailing_comma. rewrite He. reflexivity.
  - apply drop_trailing_comma_single.
Qed.

Lemma trailing_comma_fixed_witness :
  exists s',
    step (state_of (process init
            (dump ["CREATE TABLE IF NOT EXISTS t ("; "id INTEGER,";
                   "name TEXT,"])))
         (ln ");")
    = Finished s' /\
    foundTable s' = false /\
    buffer s' = dump ["CREATE TABLE IF NOT EXISTS t ("; "id INTEGER,";
                      "name TEXT"; ");"] /\
    output s' = dump ["CREATE TABLE IF NOT EXISTS t ("; "id INTEGER,";
                      "name TEXT"; ");"].
Proof.
  destruct (trailing_comma_fixed
              (state_of (process init
                 (dump ["CREATE TABLE IF NOT EXISTS t ("; "id INTEGER,";
                        "name TEXT,"])))
              (ln ");")
              (dump ["CREATE TABLE IF NOT EXISTS t ("; "id INTEGER,"])
              (ln "name TEXT,") [ln ");"]
              eq_refl eq_refl eq_refl eq_refl eq_refl
              (Forall_cons _ (eq_refl : is_content (ln ");") = false)
                 (Forall_nil _)))
    as (s' & Hstep & Hopen & Hbuf & Hout & _).
  exists s'. repeat split; assumption.
Defined.

(** The claim as the spec words it fails.  Of two commas one is removed, and
    the line written before the terminator still ends with a comma; and a
    blank line of the dump is buffered as a newline, which the scan does not
    pass over, so the comma of the column line above it stays. *)
Lemma no_trailing_comma_fails :
  run (dump ["CREATE TABLE IF NOT EXISTS t ("; "id INTEGER,,"; ");"])
  = Completed (dump ["CREATE TABLE IF NOT EXISTS t ("; "id INTEGER,"; ");";
                     "COMMIT;"])
  /\ Py.endswith (ln "id INTEGER,") ("," ++ Py.nl) = true
  /\ run (dump ["CREATE TABLE IF NOT EXISTS t ("; "id INTEGER,"; ""; ");"])
     = Completed (dump ["CREATE TABLE IF NOT EXISTS t ("; "id INTEGER,"; "";
                        ");"; "COMMIT;"]).
Proof. vm_compute. repeat split; reflexivity. Qed.

(** C8, as the code has it.  The one-line definition opens a block that no
    line closes, so nothing of it is written.  Laid out as the dump tool does,
    with the key in a [PRIMARY KEY(id AUTOINCREMENT)] line and [);] on a line
    of its own, the column [id] is written followed by [SERIAL PRIMARY KEY]
    and the [PRIMARY KEY(] line is gone. *)
Theorem autoincrement_key_scenario :
  (exists s,
     process init
       (dump ["CREATE TABLE t (id INTEGER PRIMARY KEY AUTOINCREMENT, name TEXT);"])
     = Finished s /\ foundTable s = true /\ output s = []) /\
  run (dump ["CREATE TABLE IF NOT EXISTS t ("; " id INTEGER NOT NULL,";
             " name TEXT,"; " PRIMARY KEY(id AUTOINCREMENT)"; ");"])
  = Completed (dump ["CREATE TABLE IF NOT EXISTS t (";
                     "id SERIAL PRIMARY KEY,"; "name TEXT"; ");"; "COMMIT;"]).
Proof.
  split.
  - eexists. split; [vm_compute; reflexivity|]. split; reflexivity.
  - vm_compute. reflexivity.
Qed.

(** The scenario as the spec words it fails: the only line written is
    [COMMIT;], and no line defines [id]. *)
Lemma single_line_table_fails :
  run (dump ["CREATE TABLE t (id INTEGER PRIMARY KEY AUTOINCREMENT, name TEXT);"])
  = Completed [ln "COMMIT;"].
Proof. vm_compute. reflexivity. Qed.

(** * More on the helper functions (lines 93-109 and 195-207) *)

Lemma prefix_nil (s : string) : String.prefix EmptyString s = true.
Proof. destruct s; reflexivity. Qed.

Lemma prefix_single (x c : ascii) (t : string) :
  String.prefix (String x EmptyString) (String c t) = Ascii.eqb x c.
Proof.
  simpl. destruct (ascii_dec x c) as [->|Hne].
  - rewrite prefix_nil, Ascii.eqb_refl. reflexivity.
  - symmetry. apply Ascii.eqb_neq. exact Hne.
Qed.

Lemma prefix_app_self (p b : string) : String.prefix p (p ++ b) = true.
Proof.
  induction p as [|x p IH]; [apply prefix_nil|].
  cbn [append]. rewrite prefix_cons_same. exact IH.
Qed.

(** The first occurrence of a character that [a] does not hold. *)
Lemma index0_char_app (x : ascii) (a b : string) :
  occurs x a = false ->
  String.index 0 (String x EmptyString) (a ++ String x b)
  = Some (String.length a).
Proof.
  intros H. induction a as [|c a IH].
  - cbn [append]. rewrite index0_cons, prefix_single, Ascii.eqb_refl.
    reflexivity.
  - simpl in H. apply orb_false_elim in H. destruct H as [Hc Ha].
    cbn [append]. rewrite index0_cons, prefix_single, Hc, (IH Ha).
    reflexivity.
Qed.

(** The search from the end of [a] in [a ++ x]. *)
Lemma index_from_app (p a x : string) :
  String.index (String.length a) p (a ++ x)
  = option_map (fun n => (String.length a + n)%nat) (String.index 0 p x).
Proof.
  induction a as [|c a IH].
  - simpl. destruct (String.index 0 p x); reflexivity.
  - cbn [append String.length]. simpl String.index. rewrite IH.
    destruct (String.index 0 p x); reflexivity.
Qed.

Lemma substring_skip_app (a x : string) (m : nat) :
  String.substring (String.length a) m (a ++ x) = String.substring 0 m x.
Proof. induction a as [|c a IH]; [reflexivity|exact IH]. Qed.

Lemma substring_prefix_app (a b : string) :
  String.substring 0 (String.length a) (a ++ b) = a.
Proof.
  induction a as [|x a IH]; simpl.
  - destruct b; reflexivity.
  - now rewrite IH.
Qed.

(** A pattern that is written in the string is found. *)
Lemma index0_app_present (p a b : string) :
  p <> EmptyString -> String.index 0 p (a ++ p ++ b) <> None.
Proof.
  intros Hp Hnone.
  apply (String.index_correct3 0 (String.length a) p (a ++ p ++ b) Hnone Hp);
    [lia|].
  rewrite substring_skip_app. apply substring_prefix_app.
Qed.

(** The first occurrence of a two-character pattern of distinct characters
    behind a string that does not hold it. *)
Lemma index0_pair_app (x y : ascii) (a b : string) :
  Ascii.eqb x y = false ->
  String.index 0 (String x (String y EmptyString)) a = None ->
  String.index 0 (String x (String y EmptyString))
    (a ++ String x (String y b))
  = Some (String.length a).
Proof.
  intros Hxy. induction a as [|c a IH]; intros Ha.
  - cbn [append]. rewrite index0_cons, !prefix_cons_same, prefix_nil.
    reflexivity.
  - apply index0_none_cons in Ha. destruct Ha as [Hpre Ha].
    cbn [append]. rewrite index0_cons, (IH Ha).
    assert (Hmiss : String.prefix (String x (String y EmptyString))
                      (String c (a ++ String x (String y b))) = false).
    { destruct (ascii_dec x c) as [<-|Hne].
      - rewrite prefix_cons_same in Hpre |- *.
        destruct a as [|d a].
        + cbn [append]. rewrite prefix_single, Ascii.eqb_sym. exact Hxy.
        + cbn [append]. rewrite prefix_single in Hpre |- *. exact Hpre.
      - apply prefix_head_differs. apply Ascii.eqb_neq. exact Hne. }
    rewrite Hmiss. reflexivity.
Qed.

(** X1.  On a field line, a name without a space followed by a space and
    anything, [modify_primary_key_syntax] keeps the name and the space and
    puts [SERIAL PRIMARY KEY,] and a newline in place of all the rest. *)
Theorem modify_primary_key_syntax_field (name rest : string) :
  occurs " "%char name = false ->
  modify_primary_key_syntax (name ++ " " ++ rest)
  = name ++ " " ++ CONST_SERIAL_PRIMARY_KEY.
Proof.
  intros Hname. unfold modify_primary_key_syntax, Py.find.
  change (name ++ " " ++ rest) with (name ++ String " "%char rest).
  rewrite (index0_char_app " "%char name rest Hname).
  assert (Hge : (Z.of_nat (String.length name) >=? 0) = true)
    by (apply Z.geb_le; lia).
  rewrite Hge. unfold Py.slice_to.
  replace (Z.to_nat (Z.of_nat (String.length name) + 1))
    with (String.length (name ++ " ")).
  - rewrite <- (string_app_assoc name " " rest) at 1.
    rewrite substring_prefix_app, string_app_assoc. reflexivity.
  - rewrite string_length_app. simpl. lia.
Qed.

Lemma modify_primary_key_syntax_field_witness :
  modify_primary_key_syntax ("actor_id" ++ " " ++ ln "INTEGER NOT NULL,")
  = "actor_id" ++ " " ++ CONST_SERIAL_PRIMARY_KEY.
Proof.
  apply (modify_primary_key_syntax_field "actor_id" (ln "INTEGER NOT NULL,")).
  reflexivity.
Defined.

Lemma index_exists_in_header (tail : string) :
  String.index 0 CONST_EXISTS ("CREATE TABLE IF NOT EXISTS " ++ tail)
  = Some 20%nat.
Proof. unfold CONST_EXISTS. cbn. rewrite prefix_nil. reflexivity. Qed.

Lemma index_paren_in_header (name : string) :
  String.prefix "(" name = false ->
  String.index 0 " (" name = None ->
  String.index 0 " (" ("CREATE TABLE IF NOT EXISTS " ++ name) = None.
Proof. intros H1 H2. cbn. rewrite H1, H2. reflexivity. Qed.

(** X2.  On the opening line of a block as the dump tool writes it,
    [CREATE TABLE IF NOT EXISTS <name> (...], [get_table_name] gives back the
    name, for every non-empty name that does not start with a parenthesis and
    does not hold [" ("]. *)
Theorem get_table_name_of_dump_line (name rest : string) :
  nonempty name = true ->
  Py.startswith name "(" = false ->
  Py.find name " (" = -1 ->
  get_table_name ("CREATE TABLE IF NOT EXISTS " ++ name ++ " (" ++ rest)
  = name.
Proof.
  intros Hne Hstart Habsent. apply find_absent in Habsent.
  unfold get_table_name, Py.find.
  rewrite index_exists_in_header.
  rewrite <- (string_app_assoc "CREATE TABLE IF NOT EXISTS " name (" (" ++ rest)).
  change (" (" ++ rest) with (String " "%char (String "("%char rest)).
  rewrite (index0_pair_app " "%char "("%char
             ("CREATE TABLE IF NOT EXISTS " ++ name) rest eq_refl
             (index_paren_in_header name Hstart Habsent)).
  rewrite string_length_app.
  change (String.length "CREATE TABLE IF NOT EXISTS ") with 27%nat.
  change (Z.of_nat 20 >=? 0) with true.
  change (Z.of_nat 20 + Py.len CONST_EXISTS) with 27. cbv iota.
  assert (Hlen : (0 < String.length name)%nat).
  { destruct name; [discriminate|simpl; lia]. }
  assert (Hgt : (Z.of_nat (27 + String.length name) >? 27) = true)
    by (apply Z.gtb_lt; lia).
  rewrite Hgt. unfold Py.slice.
  replace (Z.to_nat (Z.of_nat (27 + String.length name) - 27))
    with (String.length name) by lia.
  change (Z.to_nat 27) with (String.length "CREATE TABLE IF NOT EXISTS ").
  rewrite string_app_assoc, substring_skip_app.
  apply substring_prefix_app.
Qed.

Lemma get_table_name_of_dump_line_witness :
  get_table_name ("CREATE TABLE IF NOT EXISTS " ++ "film_actor" ++ " (" ++ Py.nl)
  = "film_actor".
Proof.
  apply (get_table_name_of_dump_line "film_actor" Py.nl); reflexivity.
Defined.

Lemma index0_app_self (p b : string) : String.index 0 p (p ++ b) = Some 0%nat.
Proof.
  destruct p as [|x p].
  - destruct b; reflexivity.
  - cbn [append]. rewrite index0_cons.
    change (String x (p ++ b)) with (String x p ++ b).
    rewrite prefix_app_self. reflexivity.
Qed.

(** X3.  [PRIMARY KEY(<name> AUTOINCREMENT...] is recognized by the scan of
    lines 195-207, which captures the name, for every name without a
    space. *)
Theorem autoincrement_key_of_dump_line (name rest : string) :
  occurs " "%char name = false ->
  autoincrement_key (CONST_PRIMARY_KEY ++ name ++ CONST_AUTOINCREMENT ++ rest)
  = Some name.
Proof.
  intros Hname. unfold autoincrement_key, Py.find, Py.find_from.
  assert (H0 : String.index 0 CONST_PRIMARY_KEY
                 (CONST_PRIMARY_KEY ++ name ++ CONST_AUTOINCREMENT ++ rest)
               = Some 0%nat).
  { apply index0_app_self. }
  rewrite H0. change (Z.of_nat 0 >=? 0) with true. cbv iota.
  change (Z.to_nat (Z.of_nat 0 + Py.len CONST_PRIMARY_KEY))
    with (String.length CONST_PRIMARY_KEY).
  rewrite index_from_app.
  change (CONST_AUTOINCREMENT ++ rest)
    with (String " "%char ("AUTOINCREMENT" ++ rest)).
  rewrite (index0_char_app " "%char name _ Hname). cbn [option_map].
  change (Z.of_nat 0 + Py.len CONST_PRIMARY_KEY) with 12.
  change (String.length CONST_PRIMARY_KEY) with 12%nat.
  assert (Hge : (Z.of_nat (12 + String.length name) >=? 12) = true)
    by (apply Z.geb_le; lia).
  rewrite Hge.
  change (String " "%char ("AUTOINCREMENT" ++ rest))
    with (CONST_AUTOINCREMENT ++ rest).
  destruct (String.index 0 CONST_AUTOINCREMENT
              (CONST_PRIMARY_KEY ++ name ++ CONST_AUTOINCREMENT ++ rest))
    as [n|] eqn:Hauto.
  - assert (Hn : (Z.of_nat n >=? 0) = true) by (apply Z.geb_le; lia).
    rewrite Hn. f_equal. unfold Py.slice.
    replace (Z.to_nat (Z.of_nat (12 + String.length name) - 12))
      with (String.length name) by lia.
    change (Z.to_nat 12) with (String.length CONST_PRIMARY_KEY).
    rewrite substring_skip_app. apply substring_prefix_app.
  - exfalso. revert Hauto.
    rewrite <- (string_app_assoc CONST_PRIMARY_KEY name).
    apply index0_app_present. discriminate.
Qed.

Lemma autoincrement_key_of_dump_line_witness :
  autoincrement_key (CONST_PRIMARY_KEY ++ "actor_id" ++ CONST_AUTOINCREMENT
                     ++ ln ")")
  = Some "actor_id".
Proof.
  apply (autoincrement_key_of_dump_line "actor_id" (ln ")")). reflexivity.
Defined.

(** * More on the primary-key rewrite (lines 185-224) *)

Lemma autoincrement_key_absent (a : string) :
  Py.find a CONST_AUTOINCREMENT = -1 -> autoincrement_key a = None.
Proof.
  intros H. unfold autoincrement_key. rewrite H.
  change (-1 >=? 0) with false.
  repeat match goal with
         | |- context [if ?b then _ else _] => destruct b
         end; reflexivity.
Qed.

Lemma scan_primary_key_none (buf : list string) :
  Forall (fun a => autoincrement_key a = None) buf ->
  scan_primary_key buf = (EmptyString, buf).
Proof.
  intros H. induction H as [|a buf Ha H IH]; [reflexivity|].
  simpl. rewrite Ha, IH. reflexivity.
Qed.

Lemma scan_primary_key_first (before : list string) (key name : string)
  (after : list string) :
  Forall (fun a => autoincrement_key a = None) before ->
  autoincrement_key key = Some name ->
  scan_primary_key (before ++ key :: after)
  = (name, (before ++ EmptyString :: after)%list).
Proof.
  intros H Hkey. induction H as [|a before Ha H IH]; simpl.
  - rewrite Hkey. reflexivity.
  - rewrite Ha, IH. reflexivity.
Qed.

Lemma rewrite_key_field_first (name : string) (before : list string)
  (field : string) (after : list string) :
  Forall (fun a => Py.find a name = -1) before ->
  (Py.find field name >=? 0) = true ->
  rewrite_key_field name (before ++ field :: after)
  = (before ++ modify_primary_key_syntax field :: after)%list.
Proof.
  intros H Hfield. induction H as [|a before Ha H IH]; simpl.
  - rewrite Hfield. reflexivity.
  - rewrite (proj2 (find_test_absent a name) Ha), IH. reflexivity.
Qed.

(** X4.  A block none of whose lines holds [ AUTOINCREMENT] comes out of the
    primary-key rewrite as it went in. *)
Theorem rewrite_primary_key_without_autoincrement (buf : list string) :
  Forall (fun a => Py.find a CONST_AUTOINCREMENT = -1) buf ->
  rewrite_primary_key buf = buf.
Proof.
  intros H. unfold rewrite_primary_key.
  rewrite scan_primary_key_none; [reflexivity|].
  eapply Forall_impl; [|exact H]. intros a. apply autoincrement_key_absent.
Qed.

Lemma rewrite_primary_key_without_autoincrement_witness :
  rewrite_primary_key
    (dump ["CREATE TABLE IF NOT EXISTS film_actor ("; "actor_id INTEGER,";
           "film_id INTEGER,"; "PRIMARY KEY(actor_id,film_id)"; ");"])
  = dump ["CREATE TABLE IF NOT EXISTS film_actor ("; "actor_id INTEGER,";
          "film_id INTEGER,"; "PRIMARY KEY(actor_id,film_id)"; ");"].
Proof.
  apply rewrite_primary_key_without_autoincrement.
  repeat constructor.
Defined.

(** X5.  In a block whose first autoincrement key line comes after the first
    line that holds the key's name, the rewrite empties that key line, puts
    the rewritten field line in place of the first line that holds the name,
    and changes no other line. *)
Theorem rewrite_primary_key_layout
  (head : list string) (field : string) (mid : list string)
  (key name : string) (tail : list string) :
  Forall (fun a => autoincrement_key a = None) (head ++ field :: mid) ->
  autoincrement_key key = Some name ->
  nonempty name = true ->
  Forall (fun a => Py.find a name = -1) head ->
  (Py.find field name >=? 0) = true ->
  rewrite_primary_key (head ++ field :: mid ++ key :: tail)
  = (head ++ modify_primary_key_syntax field :: mid
     ++ EmptyString :: tail)%list.
Proof.
  intros Hnone Hkey Hname Hhead Hfield. unfold rewrite_primary_key.
  replace (head ++ field :: mid ++ key :: tail)%list
    with ((head ++ field :: mid) ++ key :: tail)%list
    by (rewrite <- app_assoc; reflexivity).
  rewrite (scan_primary_key_first _ key name tail Hnone Hkey), Hname.
  rewrite <- app_assoc. cbn [app].
  apply rewrite_key_field_first; assumption.
Qed.

Lemma rewrite_primary_key_layout_witness :
  rewrite_primary_key
    (dump ["CREATE TABLE IF NOT EXISTS actor ("; "actor_id INTEGER NOT NULL,";
           "first_name VARCHAR(45) NOT NULL,";
           "PRIMARY KEY(actor_id AUTOINCREMENT)"; ");"])
  = [ln "CREATE TABLE IF NOT EXISTS actor ("; ln "actor_id SERIAL PRIMARY KEY,";
     ln "first_name VARCHAR(45) NOT NULL,"; EmptyString; ln ");"].
Proof.
  apply (rewrite_primary_key_layout
           [ln "CREATE TABLE IF NOT EXISTS actor ("]
           (ln "actor_id INTEGER NOT NULL,")
           [ln "first_name VARCHAR(45) NOT NULL,"]
           (ln "PRIMARY KEY(actor_id AUTOINCREMENT)") "actor_id" [ln ");"]).
  - repeat constructor.
  - reflexivity.
  - reflexivity.
  - repeat constructor.
  - reflexivity.
Defined.

(** * More on the main loop (lines 119-258) *)

Lemma starts_block_false (line : string) :
  starts_block line = false ->
  Py.startswith line CONST_CREATE_TABLE = false /\
  Py.startswith line CONST_CREATE_TRIGGER_START = false /\
  Py.startswith line CONST_CREATE_VIEW_START = false.
Proof.
  unfold starts_block. intros H.
  apply orb_false_elim in H. destruct H as [H Hv].
  apply orb_false_elim in H. tauto.
Qed.

(** ** The rewritten line ends with its newline *)

Lemma prefix_length (p s : string) :
  String.prefix p s = true -> (String.length p <= String.length s)%nat.
Proof.
  revert s. induction p as [|x p IH]; intros s H; [simpl; lia|].
  destruct s as [|c s]; [discriminate|].
  simpl in H. destruct (ascii_dec x c); [|discriminate].
  apply IH in H. simpl. lia.
Qed.

Lemma prefix_split (p s : string) :
  String.prefix p s = true -> exists t, s = p ++ t.
Proof.
  revert s. induction p as [|x p IH]; intros s H.
  - exists s. reflexivity.
  - destruct s as [|c s]; [discriminate|].
    simpl in H. destruct (ascii_dec x c) as [->|]; [|discriminate].
    destruct (IH s H) as [t ->]. exists t. reflexivity.
Qed.

(** A pattern without [c] starts [s ++ c] only if it starts [s]. *)
Lemma prefix_app_char (p s : string) (c : ascii) :
  occurs c p = false -> p <> EmptyString ->
  String.prefix p (s ++ String c EmptyString) = String.prefix p s.
Proof.
  revert s. induction p as [|x p IH]; intros s Hocc Hne; [congruence|].
  simpl in Hocc. apply orb_false_elim in Hocc. destruct Hocc as [Hx Hp].
  destruct s as [|d s].
  - cbn [append]. apply prefix_head_differs. rewrite Ascii.eqb_sym. exact Hx.
  - cbn [append]. destruct (ascii_dec x d) as [->|Hxd].
    + rewrite !prefix_cons_same. destruct p as [|y p].
      * rewrite !prefix_nil. reflexivity.
      * apply IH; [exact Hp|discriminate].
    + rewrite !prefix_head_differs by (apply Ascii.eqb_neq; exact Hxd).
      reflexivity.
Qed.

Lemma replace_aux_skip (old new p t : string) :
  Py.replace_aux old new (String.length p) (p ++ t)
  = Py.replace_aux old new 0 t.
Proof.
  induction p as [|x p IH]; [reflexivity|].
  cbn [append String.length Py.replace_aux]. exact IH.
Qed.

(** The two equations of [str.replace], without the counter. *)
Lemma replace_match (o : ascii) (old' new t : string) :
  Py.replace (String o old' ++ t) (String o old') new
  = new ++ Py.replace t (String o old') new.
Proof.
  unfold Py.replace. cbn [append Py.replace_aux].
  change (String o (old' ++ t)) with (String o old' ++ t).
  rewrite prefix_app_self.
  replace (String.length (String o old') - 1)%nat with (String.length old')
    by (simpl; lia).
  rewrite replace_aux_skip. reflexivity.
Qed.

Lemma replace_miss (old new : string) (c : ascii) (s : string) :
  String.prefix old (String c s) = false ->
  Py.replace (String c s) old new = String c (Py.replace s old new).
Proof. unfold Py.replace. cbn [Py.replace_aux]. intros ->. reflexivity. Qed.

(** Replacing a pattern that holds no [c] leaves a final [c] in place. *)
Lemma replace_app_char (o : ascii) (old' new : string) (c : ascii) :
  occurs c (String o old') = false ->
  forall n s, (String.length s <= n)%nat ->
    Py.replace (s ++ String c EmptyString) (String o old') new
    = Py.replace s (String o old') new ++ String c EmptyString.
Proof.
  intros Hocc. induction n as [|n IH]; intros s Hlen.
  - destruct s; [|simpl in Hlen; lia].
    cbn [append]. rewrite replace_miss; [reflexivity|].
    apply prefix_head_differs. simpl in Hocc.
    apply orb_false_elim in Hocc. rewrite Ascii.eqb_sym. tauto.
  - destruct s as [|d s].
    + apply (IH EmptyString). simpl. lia.
    + destruct (String.prefix (String o old') (String d s)) eqn:Hp.
      * destruct (prefix_split _ _ Hp) as [t Ht]. rewrite Ht.
        rewrite string_app_assoc, !replace_match, IH, string_app_assoc;
          [reflexivity|].
        assert (Hl : String.length (String d s)
                     = (String.length (String o old') + String.length t)%nat)
          by (rewrite Ht; apply string_length_app).
        simpl in Hl, Hlen. lia.
      * cbn [append]. rewrite !replace_miss.
        -- rewrite IH by (simpl in Hlen; lia). reflexivity.
        -- exact Hp.
        -- change (String d (s ++ String c EmptyString))
             with (String d s ++ String c EmptyString).
           rewrite prefix_app_char; [exact Hp|exact Hocc|discriminate].
Qed.

Lemma replace_line (body : string) (o : ascii) (old' new : string) :
  occurs Py.LF (String o old') = false ->
  Py.replace (body ++ Py.nl) (String o old') new
  = Py.replace body (String o old') new ++ Py.nl.
Proof.
  intros H. apply (replace_app_char o old' new Py.LF H (String.length body)).
  lia.
Qed.

Lemma replace_line_any (body old new : string) :
  nonempty old && negb (occurs Py.LF old) = true ->
  Py.replace (body ++ Py.nl) old new = Py.replace body old new ++ Py.nl.
Proof.
  intros H. apply andb_prop in H. destruct H as [Hne Hocc].
  destruct old as [|o old']; [discriminate|].
  apply replace_line. apply negb_true_iff. exact Hocc.
Qed.

Lemma substring_length_le (s : string) (n m : nat) :
  (String.length (String.substring n m s) <= String.length s - n)%nat.
Proof.
  revert n m. induction s as [|c s IH]; intros n m.
  - destruct n, m; simpl; lia.
  - destruct n as [|n].
    + destruct m as [|m]; simpl; [lia|]. specialize (IH 0%nat m). lia.
    + simpl. apply IH.
Qed.

Lemma substring_app_tail (y t : string) (n : nat) :
  (n <= String.length y)%nat ->
  String.substring n (String.length (y ++ t) - n) (y ++ t)
  = String.substring n (String.length y - n) y ++ t.
Proof.
  revert n. induction y as [|c y IH]; intros n Hn.
  - simpl in Hn. assert (n = 0%nat) by lia. subst.
    cbn [append String.length]. rewrite Nat.sub_0_r, substring_all.
    reflexivity.
  - destruct n as [|n].
    + rewrite !Nat.sub_0_r, !substring_all. reflexivity.
    + simpl in Hn. cbn [append String.length]. simpl. apply IH. lia.
Qed.

Lemma patch_missing_datatype_line (body : string) :
  exists body', patch_missing_datatype (body ++ Py.nl) = body' ++ Py.nl.
Proof.
  unfold patch_missing_datatype.
  set (line := body ++ Py.nl). set (pt := Py.find line " ").
  destruct (pt >? 0) eqn:Hpt; [|exists body; reflexivity].
  destruct (String.eqb_spec (Py.slice line (pt + 1) (pt + 8)) CONST_DEFAULT)
    as [He|]; [|exists body; reflexivity].
  apply Z.gtb_lt in Hpt. unfold Py.slice in He.
  replace (pt + 8 - (pt + 1)) with 7 in He by lia.
  pose proof (substring_length_le line (Z.to_nat (pt + 1)) (Z.to_nat 7)) as Hl.
  rewrite He in Hl. unfold line in Hl. rewrite string_length_app in Hl.
  simpl in Hl.
  unfold Py.slice_from, line.
  rewrite substring_app_tail by lia.
  eexists. rewrite <- !string_app_assoc. reflexivity.
Qed.

(** Every rewritten line is some text and one final newline. *)
Lemma token_rewrite_line (raw : string) :
  exists body, token_rewrite raw = body ++ Py.nl.
Proof.
  unfold token_rewrite.
  assert (Hhead : exists body, rewrite_head raw = body ++ Py.nl).
  { unfold rewrite_head. eexists.
    rewrite !replace_line_any by reflexivity. reflexivity. }
  destruct Hhead as [h ->].
  assert (Hbool : exists body, rewrite_boolean (h ++ Py.nl) = body ++ Py.nl).
  { unfold rewrite_boolean.
    repeat match goal with
           | |- context [if ?b then _ else _] => destruct b
           end;
      eexists; rewrite ?replace_line_any by reflexivity; reflexivity. }
  destruct Hbool as [b ->].
  assert (Htypes : exists body, rewrite_types (b ++ Py.nl) = body ++ Py.nl).
  { unfold rewrite_types. eexists.
    rewrite !replace_line_any by reflexivity. reflexivity. }
  destruct Htypes as [t ->].
  apply patch_missing_datatype_line.
Qed.

Lemma token_rewrite_nonempty (raw : string) :
  nonempty (token_rewrite raw) = true.
Proof.
  destruct (token_rewrite_line raw) as [body ->]. destruct body; reflexivity.
Qed.

(** X6.  Whatever the input line, the rewritten line ends with a newline and
    holds no tab, no carriage return and no double quote. *)
Theorem token_rewrite_clean (raw : string) :
  Py.endswith (token_rewrite raw) Py.nl = true /\
  occurs Py.TAB (token_rewrite raw) = false /\
  occurs Py.CR (token_rewrite raw) = false /\
  occurs Py.DQUOTE (token_rewrite raw) = false.
Proof.
  split; [|split; [apply token_rewrite_no_tab|split]].
  - destruct (token_rewrite_line raw) as [body ->]. apply endswith_app.
  - unfold token_rewrite.
    assert (Hhead : occurs Py.CR (rewrite_head raw) = false).
    { unfold rewrite_head.
      repeat (apply occurs_replace; [reflexivity|]).
      rewrite occurs_app. apply orb_false_intro; [|reflexivity].
      unfold Py.strip. apply occurs_rstrip, occurs_lstrip.
      apply occurs_replace; [reflexivity|].
      apply occurs_replace_char. reflexivity. }
    set (h := rewrite_head raw) in *. clearbody h.
    assert (Hbool : occurs Py.CR (rewrite_boolean h) = false).
    { unfold rewrite_boolean.
      repeat match goal with
             | |- context [if ?b then _ else _] => destruct b
             end;
        repeat (apply occurs_replace; [reflexivity|]); exact Hhead. }
    set (b := rewrite_boolean h) in *. clearbody b.
    assert (Htypes : occurs Py.CR (rewrite_types b) = false).
    { unfold rewrite_types.
      repeat (apply occurs_replace; [reflexivity|]). exact Hbool. }
    set (t := rewrite_types b) in *. clearbody t.
    unfold patch_missing_datatype.
    repeat match goal with
           | |- context [if ?b then _ else _] => destruct b
           end; try exact Htypes.
    unfold Py.slice_to, Py.slice_from.
    rewrite !occurs_app, !occurs_substring by exact Htypes. reflexivity.
  - unfold token_rewrite.
    assert (Hhead : occurs Py.DQUOTE (rewrite_head raw) = false).
    { unfold rewrite_head.
      do 2 (apply occurs_replace; [reflexivity|]).
      apply occurs_replace_char. reflexivity. }
    set (h := rewrite_head raw) in *. clearbody h.
    assert (Hbool : occurs Py.DQUOTE (rewrite_boolean h) = false).
    { unfold rewrite_boolean.
      repeat match goal with
             | |- context [if ?b then _ else _] => destruct b
             end;
        repeat (apply occurs_replace; [reflexivity|]); exact Hhead. }
    set (b := rewrite_boolean h) in *. clearbody b.
    assert (Htypes : occurs Py.DQUOTE (rewrite_types b) = false).
    { unfold rewrite_types.
      repeat (apply occurs_replace; [reflexivity|]). exact Hbool. }
    set (t := rewrite_types b) in *. clearbody t.
    unfold patch_missing_datatype.
    repeat match goal with
           | |- context [if ?b then _ else _] => destruct b
           end; try exact Htypes.
    unfold Py.slice_to, Py.slice_from.
    rewrite !occurs_app, !occurs_substring by exact Htypes. reflexivity.
Qed.

(** ** Lines outside any block *)

Lemma step_idle (s : state) (raw : string) :
  idle s ->
  starts_block (token_rewrite raw) = false ->
  step s raw = Finished (write s (token_rewrite raw)).
Proof.
  intros (Ht & Htr & Hv & Hname) Hplain.
  apply starts_block_false in Hplain. destruct Hplain as (H1 & H2 & H3).
  unfold step, step_rewritten.
  rewrite (open_table_other _ _ H1).
  unfold capture_foreign_key, captures. rewrite Hname, andb_false_r.
  rewrite (mark_trigger_view_other _ _ H2 H3).
  unfold route. rewrite Ht, Htr, Hv, token_rewrite_nonempty. reflexivity.
Qed.

Lemma process_idle (lines : list string) (s : state) :
  idle s ->
  Forall (fun raw => starts_block (token_rewrite raw) = false) lines ->
  exists s',
    process s lines = Finished s' /\
    output s' = (output s ++ map token_rewrite lines)%list /\
    idle s' /\ fk_buffer s' = fk_buffer s /\ a_line s' = a_line s.
Proof.
  revert s. induction lines as [|raw rest IH]; intros s Hidle Hall.
  - exists s. rewrite app_nil_r. auto.
  - inversion Hall as [|? ? Hraw Hrest]; subst.
    destruct (IH (write s (token_rewrite raw))) as (s' & Hs' & Ho & Hi & Hf & Ha).
    + exact Hidle.
    + exact Hrest.
    + exists s'. simpl. rewrite (step_idle s raw Hidle Hraw).
      repeat split; try apply Hi; try assumption.
      rewrite Ho. simpl. rewrite <- app_assoc. reflexivity.
Qed.

(** X7.  From a point where no block is open, lines that start none of
    [CREATE TABLE], [CREATE TRIGGER], [CREATE VIEW] are written one for one,
    rewritten and in their order, foreign-key lines included; nothing is
    queued and no block is opened.  If the input ends there, the run
    completes with the queued constraints and [COMMIT] behind them. *)
Theorem plain_lines_written
  (pre lines : list string) (s : state) :
  process init pre = Finished s ->
  idle s ->
  Forall (fun raw => starts_block (token_rewrite raw) = false) lines ->
  (exists s',
     process s lines = Finished s' /\
     output s' = (output s ++ map token_rewrite lines)%list /\
     idle s' /\ fk_buffer s' = fk_buffer s) /\
  run (pre ++ lines)%list
  = Completed (output s ++ map token_rewrite lines
               ++ map alter_line (fk_buffer s) ++ [COMMIT]).
Proof.
  intros Hpre Hidle Hall.
  destruct (process_idle lines s Hidle Hall) as (s' & Hs' & Ho & Hi & Hf & _).
  split; [exists s'; auto|].
  unfold run. rewrite process_app, Hpre, Hs', Ho, Hf, <- app_assoc.
  reflexivity.
Qed.

Lemma plain_lines_written_witness :
  run (dump ["BEGIN TRANSACTION;"; "INSERT INTO actor VALUES(1,'PENELOPE');";
             "CONSTRAINT fk FOREIGN KEY (a) REFERENCES b(id)"])
  = Completed (dump ["BEGIN TRANSACTION;";
                     "INSERT INTO actor VALUES(1,'PENELOPE');";
                     "CONSTRAINT fk FOREIGN KEY (a) REFERENCES b(id)";
                     "COMMIT;"]).
Proof.
  apply (plain_lines_written
           [] (dump ["BEGIN TRANSACTION;";
                     "INSERT INTO actor VALUES(1,'PENELOPE');";
                     "CONSTRAINT fk FOREIGN KEY (a) REFERENCES b(id)"]) init).
  - reflexivity.
  - repeat split.
  - repeat constructor.
Defined.

(** ** The tests of lines 252 and 256 *)

(** X8.  Once a table block has been finalized on a line that holds [;] and
    its newline, a [CREATE VIEW] line met outside any block is dropped and
    leaves every variable as it was: line 256 clears [foundView] on that
    same line, and the lines that follow are treated as lines outside any
    block. *)
Theorem view_line_swallowed (s : state) (raw a : string) :
  idle s ->
  a_line s = Some a ->
  (Py.find a CONST_CREATE_VIEW_END >=? 0) = true ->
  Py.startswith (token_rewrite raw) CONST_CREATE_VIEW_START = true ->
  step s raw = Finished s.
Proof.
  intros (Ht & Htr & Hv & Hname) Ha Hend Hview.
  unfold step, step_rewritten.
  rewrite open_table_other
    by (eapply startswith_exclusive; try exact Hview; reflexivity).
  unfold capture_foreign_key, captures. rewrite Hname, andb_false_r.
  unfold route. cbn [mark_trigger_view foundTable foundTrigger foundView a_line].
  rewrite Hview, Ht, Htr, Ha, Hend.
  unfold set_foundView, mark_trigger_view.
  rewrite (startswith_exclusive _ CONST_CREATE_VIEW_START
             CONST_CREATE_TRIGGER_START eq_refl eq_refl Hview).
  destruct s; simpl in *. subst. reflexivity.
Qed.

Lemma view_line_swallowed_witness :
  step (state_of (process init
          (dump ["CREATE TABLE IF NOT EXISTS t ("; "id INTEGER"; ");"])))
       (ln "CREATE VIEW v AS")
  = Finished (state_of (process init
                (dump ["CREATE TABLE IF NOT EXISTS t ("; "id INTEGER"; ");"]))).
Proof.
  apply (view_line_swallowed _ _ (ln ");")); try reflexivity.
  repeat split.
Defined.

Lemma step_in_trigger (s : state) (raw a : string) :
  foundTable s = false ->
  currentTableName s = EmptyString ->
  foundTrigger s = true ->
  a_line s = Some a ->
  (Py.find a CONST_CREATE_TRIGGER_END >=? 0) = false ->
  Py.startswith (token_rewrite raw) CONST_CREATE_TABLE = false ->
  step s raw
  = Finished (mark_trigger_view s (token_rewrite raw)).
Proof.
  intros Ht Hname Htr Ha Hend Hplain.
  unfold step, step_rewritten.
  rewrite (open_table_other _ _ Hplain).
  unfold capture_foreign_key, captures. rewrite Hname, andb_false_r.
  unfold route. cbn [mark_trigger_view foundTable foundTrigger foundView a_line].
  rewrite Ht, Htr, Ha, Hend.
  destruct (Py.startswith (token_rewrite raw) CONST_CREATE_TRIGGER_START);
    reflexivity.
Qed.

(** X9.  Line 252 looks for [END;] in [a_line], which only the finalization
    of a table block assigns.  With [foundTrigger] set outside a table block
    and an [a_line] that does not hold [END;] and a newline, no line is
    written and [foundTrigger] stays set, whatever the lines hold, for as
    long as none of them starts with [CREATE TABLE]. *)
Theorem trigger_never_closes (lines : list string) (s : state) (a : string) :
  foundTable s = false ->
  currentTableName s = EmptyString ->
  foundTrigger s = true ->
  a_line s = Some a ->
  (Py.find a CONST_CREATE_TRIGGER_END >=? 0) = false ->
  Forall (fun raw => Py.startswith (token_rewrite raw) CONST_CREATE_TABLE
                     = false) lines ->
  exists s',
    process s lines = Finished s' /\
    output s' = output s /\ foundTrigger s' = true /\
    foundTable s' = false /\ fk_buffer s' = fk_buffer s.
Proof.
  revert s. induction lines as [|raw rest IH];
    intros s Ht Hname Htr Ha Hend Hall.
  - exists s. auto.
  - inversion Hall as [|? ? Hraw Hrest]; subst.
    simpl. rewrite (step_in_trigger s raw a Ht Hname Htr Ha Hend Hraw).
    destruct (IH (mark_trigger_view s (token_rewrite raw)))
      as (s' & Hs' & Ho & Htr' & Ht' & Hf); try assumption.
    + simpl. rewrite Htr.
      destruct (Py.startswith (token_rewrite raw) CONST_CREATE_TRIGGER_START);
        reflexivity.
    + exists s'. auto.
Qed.

Lemma trigger_never_closes_witness :
  exists s',
    process
      (state_of (process init
         (dump ["CREATE TABLE IF NOT EXISTS t ("; "id INTEGER"; ");";
                "CREATE TRIGGER trg AFTER INSERT ON t"])))
      (dump ["BEGIN"; "END;"; "INSERT INTO t VALUES(1);"])
    = Finished s' /\
    output s' = dump ["CREATE TABLE IF NOT EXISTS t ("; "id INTEGER"; ");"] /\
    foundTrigger s' = true /\ foundTable s' = false /\ fk_buffer s' = [].
Proof.
  apply (trigger_never_closes
           (dump ["BEGIN"; "END;"; "INSERT INTO t VALUES(1);"])
           (state_of (process init
              (dump ["CREATE TABLE IF NOT EXISTS t ("; "id INTEGER"; ");";
                     "CREATE TRIGGER trg AFTER INSERT ON t"])))
           (ln ");")); try reflexivity.
  repeat constructor.
Defined.

(** ** Where a run can raise *)

Lemma settled_init : settled init.
Proof. intros _. repeat split. Qed.

Lemma route_settles (m s' : state) (line : string) :
  (a_line m = None -> tableCount m = 0%nat) ->
  route m line = Finished s' -> settled s'.
Proof.
  intros Hcount Hroute. unfold route in Hroute.
  destruct (foundTable m) eqn:Ht.
  - destruct (Py.startswith line TERMINATOR); inversion Hroute; subst.
    + intros Hnone. exfalso. exact (finalize_binds m line Hnone).
    + intros Hnone. simpl in *. split; [auto|congruence].
  - destruct (foundTrigger m) eqn:Htr.
    + destruct (a_line m) as [a|] eqn:Ha; [|discriminate].
      destruct (Py.find a CONST_CREATE_TRIGGER_END >=? 0);
        inversion Hroute; subst; intros Hnone; simpl in Hnone; congruence.
    + destruct (foundView m) eqn:Hv.
      * destruct (a_line m) as [a|] eqn:Ha; [|discriminate].
        destruct (Py.find a CONST_CREATE_VIEW_END >=? 0);
          inversion Hroute; subst; intros Hnone; simpl in Hnone; congruence.
      * destruct (nonempty line); inversion Hroute; subst;
          intros Hnone; simpl in *; auto.
Qed.

Lemma settled_step (s s' : state) (raw : string) :
  settled s -> step s raw = Finished s' -> settled s'.
Proof.
  intros Hs. unfold step, step_rewritten, capture_foreign_key.
  set (line := token_rewrite raw).
  assert (Ho : a_line (open_table s line) = a_line s /\
               tableCount (open_table s line) = tableCount s).
  { unfold open_table. destruct (Py.startswith line CONST_CREATE_TABLE);
      split; reflexivity. }
  destruct Ho as [Ha Hc].
  destruct (captures (open_table s line) line); apply route_settles; simpl;
    rewrite Ha, Hc; intros Hnone; apply (Hs Hnone).
Qed.

Lemma step_open_finished (s : state) (line : string) :
  foundTable (open_table s line) = true ->
  exists s', step_rewritten s line = Finished s'.
Proof.
  intros Hopen. unfold step_rewritten, capture_foreign_key.
  destruct (captures (open_table s line) line); unfold route;
    cbn [mark_trigger_view foundTable]; rewrite Hopen;
    match goal with
    | |- context [if ?b then _ else _] => destruct b
    end; eexists; reflexivity.
Qed.

(** The only step that raises. *)
Lemma step_raises (s e : state) (raw : string) :
  consistent s -> settled s ->
  step s raw = NameError e ->
  tableCount s = 0%nat /\ foundTable s = false /\
  (Py.startswith (token_rewrite raw) CONST_CREATE_TRIGGER_START = true \/
   Py.startswith (token_rewrite raw) CONST_CREATE_VIEW_START = true) /\
  output e = output s.
Proof.
  intros (Hname & _ & _) Hs. unfold step, step_rewritten.
  set (line := token_rewrite raw).
  destruct (Py.startswith line CONST_CREATE_TABLE) eqn:Hopen.
  - destruct (step_open_finished s line (open_table_opens s line Hopen))
      as [s' Hs']. fold (step_rewritten s line). rewrite Hs'. discriminate.
  - destruct (foundTable s) eqn:Ht.
    + destruct (step_open_finished s line (open_table_stays_open s line Ht))
        as [s' Hs']. fold (step_rewritten s line). rewrite Hs'. discriminate.
    + rewrite (open_table_other _ _ Hopen).
      specialize (Hname eq_refl).
      unfold capture_foreign_key, captures. rewrite Hname, andb_false_r.
      unfold route.
      cbn [mark_trigger_view foundTable foundTrigger foundView a_line].
      rewrite Ht.
      destruct (a_line s) as [a|] eqn:Ha.
      * repeat match goal with
               | |- context [if ?b then _ else _] => destruct b
               end; discriminate.
      * destruct (Hs Ha) as (Hcount & Hflags).
        destruct (Hflags Ht) as (Htr & Hv). rewrite Htr, Hv.
        destruct (Py.startswith line CONST_CREATE_TRIGGER_START).
        -- intros H. inversion H; subst. simpl. auto.
        -- destruct (Py.startswith line CONST_CREATE_VIEW_START).
           ++ intros H. inversion H; subst. simpl. auto.
           ++ destruct (nonempty line); discriminate.
Qed.

Lemma process_raises (lines : list string) (s e : state) :
  consistent s -> settled s ->
  process s lines = NameError e ->
  exists pre raw post s1,
    lines = (pre ++ raw :: post)%list /\
    process s pre = Finished s1 /\
    tableCount s1 = 0%nat /\ foundTable s1 = false /\
    (Py.startswith (token_rewrite raw) CONST_CREATE_TRIGGER_START = true \/
     Py.startswith (token_rewrite raw) CONST_CREATE_VIEW_START = true) /\
    output e = output s1.
Proof.
  revert s. induction lines as [|raw rest IH]; intros s Hc Hs Hp.
  - discriminate.
  - simpl in Hp. destruct (step s raw) as [s1|e1] eqn:Hstep.
    + assert (Hc1 : consistent s1).
      { pose proof (consistent_step s raw Hc) as H. rewrite Hstep in H.
        exact H. }
      pose proof (settled_step s s1 raw Hs Hstep) as Hs1.
      destruct (IH s1 Hc1 Hs1 Hp)
        as (pre & raw' & post & s2 & -> & Hpre & H).
      exists (raw :: pre), raw', post, s2. simpl. rewrite Hstep.
      split; [reflexivity|]. split; [exact Hpre|exact H].
    + inversion Hp; subst.
      destruct (step_raises s e raw Hc Hs Hstep) as (H1 & H2 & H3 & H4).
      exists [], raw, rest, s. simpl. repeat split; assumption.
Qed.

(** X10.  A run raises in one way only: every run that ends in the
    [NameError] stopped at a line that starts with [CREATE TRIGGER] or
    [CREATE VIEW], reached with no table block finalized before it and none
    open, and what it leaves in the file is what was written up to that
    line. *)
Theorem name_error_only_at_trigger_or_view
  (lines : list string) (partial : list string) :
  run lines = Failed partial ->
  exists pre raw post s,
    lines = (pre ++ raw :: post)%list /\
    process init pre = Finished s /\
    tableCount s = 0%nat /\ foundTable s = false /\
    (Py.startswith (token_rewrite raw) CONST_CREATE_TRIGGER_START = true \/
     Py.startswith (token_rewrite raw) CONST_CREATE_VIEW_START = true) /\
    partial = output s.
Proof.
  unfold run. intros Hrun.
  destruct (process init lines) as [s|e] eqn:Hp; [discriminate|].
  inversion Hrun; subst.
  apply (process_raises lines init e consistent_init settled_init Hp).
Qed.

Lemma name_error_only_at_trigger_or_view_witness :
  exists pre raw post s,
    dump ["PRAGMA foreign_keys=OFF;"; "CREATE VIEW v AS"; "SELECT 1;"]
    = (pre ++ raw :: post)%list /\
    process init pre = Finished s /\
    tableCount s = 0%nat /\ foundTable s = false /\
    (Py.startswith (token_rewrite raw) CONST_CREATE_TRIGGER_START = true \/
     Py.startswith (token_rewrite raw) CONST_CREATE_VIEW_START = true) /\
    [ln "PRAGMA foreign_keys=OFF;"] = output s.
Proof.
  apply (name_error_only_at_trigger_or_view
           (dump ["PRAGMA foreign_keys=OFF;"; "CREATE VIEW v AS"; "SELECT 1;"])
           [ln "PRAGMA foreign_keys=OFF;"]).
  reflexivity.
Defined.

(** X11.  A dump in which no line, once rewritten, starts with
    [CREATE TRIGGER] or [CREATE VIEW] never raises: the run completes, and
    the last string it writes is [COMMIT;] and a newline. *)
Theorem run_without_trigger_or_view_completes (lines : list string) :
  Forall (fun raw =>
            Py.startswith (token_rewrite raw) CONST_CREATE_TRIGGER_START
            = false /\
            Py.startswith (token_rewrite raw) CONST_CREATE_VIEW_START = false)
         lines ->
  exists out, run lines = Completed out /\ last out EmptyString = COMMIT.
Proof.
  intros Hall. unfold run.
  destruct (process init lines) as [s|e] eqn:Hp.
  - eexists. split; [reflexivity|].
    rewrite app_assoc. apply last_last.
  - exfalso.
    destruct (process_raises lines init e consistent_init settled_init Hp)
      as (pre & raw & post & s1 & -> & _ & _ & _ & Hstart & _).
    rewrite Forall_forall in Hall.
    destruct (Hall raw (in_elt raw pre post)) as [Ht Hv].
    destruct Hstart; congruence.
Qed.

Lemma run_without_trigger_or_view_completes_witness :
  exists out,
    run (dump ["CREATE TABLE IF NOT EXISTS t ("; "id INTEGER"; ");";
               "INSERT INTO t VALUES(1);"])
    = Completed out /\ last out EmptyString = COMMIT.
Proof.
  apply run_without_trigger_or_view_completes. repeat constructor.
Defined.

(** ** A whole table block *)

(** Lines 150-184 on a line inside an open block that neither opens a new
    one nor closes this one. *)
Lemma step_in_block (s : state) (line : string) :
  foundTable s = true ->
  Py.startswith line CONST_CREATE_TABLE = false ->
  Py.startswith line TERMINATOR = false ->
  exists s',
    step_rewritten s line = Finished s' /\
    foundTable s' = true /\
    currentTableName s' = currentTableName s /\
    tableCount s' = tableCount s /\
    output s' = output s /\
    buffer s' = (buffer s ++ [block_entry (currentTableName s) line])%list /\
    fk_buffer s'
    = (fk_buffer s ++ block_queue (currentTableName s) [line])%list.
Proof.
  intros Hopen Hplain Hterm. unfold step_rewritten.
  rewrite (open_table_other _ _ Hplain).
  unfold capture_foreign_key, captures, block_entry, block_queue.
  cbn [flat_map]. rewrite app_nil_r.
  destruct ((Py.find line CONST_FOREIGN_KEY >=? 0)
            && nonempty (currentTableName s)).
  - unfold route. cbn [mark_trigger_view foundTable]. rewrite Hopen.
    eexists. split; [reflexivity|]. simpl. repeat split; auto.
  - unfold route. cbn [mark_trigger_view foundTable]. rewrite Hopen, Hterm.
    eexists. split; [reflexivity|]. simpl. rewrite app_nil_r.
    repeat split; auto.
Qed.

Lemma block_queue_app (name : string) (a b : list string) :
  block_queue name (a ++ b)
  = (block_queue name a ++ block_queue name b)%list.
Proof. apply flat_map_app. Qed.

Lemma process_in_block (body : list string) (s : state) :
  foundTable s = true ->
  Forall (fun raw =>
            Py.startswith (token_rewrite raw) CONST_CREATE_TABLE = false /\
            Py.startswith (token_rewrite raw) TERMINATOR = false) body ->
  exists s',
    process s body = Finished s' /\
    foundTable s' = true /\
    currentTableName s' = currentTableName s /\
    tableCount s' = tableCount s /\
    output s' = output s /\
    buffer s'
    = (buffer s
       ++ map (block_entry (currentTableName s)) (map token_rewrite body))%list /\
    fk_buffer s'
    = (fk_buffer s
       ++ block_queue (currentTableName s) (map token_rewrite body))%list.
Proof.
  revert s. induction body as [|raw rest IH]; intros s Hopen Hall.
  - exists s. simpl. rewrite !app_nil_r. auto 8.
  - inversion Hall as [|? ? [Hplain Hterm] Hrest]; subst.
    destruct (step_in_block s (token_rewrite raw) Hopen Hplain Hterm)
      as (s1 & Hs1 & Ht1 & Hn1 & Hc1 & Ho1 & Hb1 & Hq1).
    destruct (IH s1 Ht1 Hrest)
      as (s' & Hs' & Ht' & Hn' & Hc' & Ho' & Hb' & Hq').
    exists s'. cbn [process map]. unfold step. rewrite Hs1.
    split; [exact Hs'|]. split; [exact Ht'|].
    split; [congruence|]. split; [congruence|]. split; [congruence|].
    split.
    + rewrite Hb', Hb1, Hn1, <- app_assoc. reflexivity.
    + rewrite Hq', Hq1, Hn1, <- app_assoc.
      change (token_rewrite raw :: map token_rewrite rest)
        with ([token_rewrite raw] ++ map token_rewrite rest)%list.
      rewrite block_queue_app. reflexivity.
Qed.

(** X12.  A block from its [CREATE TABLE] line to the first line that starts
    with [);], met in any state, is written as a whole when that line is
    read: what is written is the block with its queued foreign-key lines
    emptied, after the primary-key rewrite and the trailing-comma fix,
    without its empty entries.  The foreign keys go to the queue in their
    order under the name taken from the opening line, the table counter goes
    up by one and the table name is cleared. *)
Theorem table_block_written
  (s : state) (opener : string) (body : list string) (closer : string) :
  let lines := map token_rewrite (opener :: body ++ [closer]) in
  let name := get_table_name (token_rewrite opener) in
  Py.startswith (token_rewrite opener) CONST_CREATE_TABLE = true ->
  Forall (fun raw =>
            Py.startswith (token_rewrite raw) CONST_CREATE_TABLE = false /\
            Py.startswith (token_rewrite raw) TERMINATOR = false) body ->
  Py.startswith (token_rewrite closer) TERMINATOR = true ->
  (Py.find (token_rewrite closer) CONST_FOREIGN_KEY >=? 0) && nonempty name
  = false ->
  exists s',
    process s (opener :: body ++ [closer]) = Finished s' /\
    output s'
    = (output s
       ++ written (fix_trailing_comma
                     (rewrite_primary_key (map (block_entry name) lines))))%list /\
    fk_buffer s' = (fk_buffer s ++ block_queue name lines)%list /\
    foundTable s' = false /\
    currentTableName s' = EmptyString /\
    tableCount s' = S (tableCount s).
Proof.
  intros lines name Hopen Hbody Hclose Hfree.
  set (o := token_rewrite opener) in *.
  (* the opening line *)
  assert (Hfirst : exists s1,
             step s opener = Finished s1 /\ foundTable s1 = true /\
             currentTableName s1 = name /\ tableCount s1 = tableCount s /\
             output s1 = output s /\ buffer s1 = [block_entry name o] /\
             fk_buffer s1 = (fk_buffer s ++ block_queue name [o])%list).
  { unfold step, step_rewritten. fold o.
    assert (Hterm : Py.startswith o TERMINATOR = false)
      by (eapply startswith_exclusive; try exact Hopen; reflexivity).
    unfold open_table. rewrite Hopen.
    unfold capture_foreign_key, captures, block_entry, block_queue.
    cbn [flat_map currentTableName]. rewrite app_nil_r. fold name.
    destruct ((Py.find o CONST_FOREIGN_KEY >=? 0) && nonempty name).
    - unfold route. cbn [mark_trigger_view foundTable].
      eexists. split; [reflexivity|]. simpl. repeat split; auto.
    - unfold route. cbn [mark_trigger_view foundTable]. rewrite Hterm.
      eexists. split; [reflexivity|]. simpl. rewrite app_nil_r.
      repeat split; auto. }
  destruct Hfirst as (s1 & Hs1 & Ht1 & Hn1 & Hc1 & Ho1 & Hb1 & Hq1).
  (* the lines of the block *)
  destruct (process_in_block body s1 Ht1 Hbody)
    as (s2 & Hs2 & Ht2 & Hn2 & Hc2 & Ho2 & Hb2 & Hq2).
  rewrite Hn1 in Hn2, Hb2, Hq2.
  (* the closing line *)
  assert (Hcap : captures s2 (token_rewrite closer) = false).
  { unfold captures. rewrite Hn2. exact Hfree. }
  pose proof (step_terminator s2 (token_rewrite closer) Ht2 Hclose Hcap)
    as Hlast.
  eexists. split.
  { change (opener :: body ++ [closer])%list
      with ([opener] ++ body ++ [closer])%list.
    rewrite process_app. cbn [process]. rewrite Hs1.
    rewrite process_app, Hs2. cbn [process].
    unfold step. rewrite Hlast. reflexivity. }
  assert (Hlines : (buffer s2 ++ [token_rewrite closer])%list
                   = map (block_entry name) lines).
  { unfold lines. cbn [map]. fold o. rewrite !map_app. cbn [map].
    rewrite Hb2, Hb1. cbn [app]. f_equal. f_equal.
    unfold block_entry. rewrite Hfree. reflexivity. }
  assert (Hqueue : fk_buffer s2 = (fk_buffer s ++ block_queue name lines)%list).
  { unfold lines. cbn [map]. fold o. rewrite map_app. cbn [map].
    change (o :: map token_rewrite body ++ [token_rewrite closer])%list
      with ([o] ++ map token_rewrite body ++ [token_rewrite closer])%list.
    rewrite !block_queue_app.
    assert (Hnone : block_queue name [token_rewrite closer] = []).
    { unfold block_queue. cbn [flat_map]. rewrite Hfree. reflexivity. }
    rewrite Hnone, app_nil_r, Hq2, Hq1, <- app_assoc. reflexivity. }
  cbn [finalize set_buffer output buffer fk_buffer foundTable
         currentTableName tableCount].
  rewrite Hlines, Ho2, Ho1, Hqueue, Hc2, Hc1. repeat split; reflexivity.
Qed.

Lemma table_block_written_witness :
  exists s',
    process init
      (dump ["CREATE TABLE IF NOT EXISTS rental ("; "rental_id INTEGER NOT NULL,";
             "customer_id INTEGER NOT NULL,";
             "FOREIGN KEY (customer_id) REFERENCES customer(customer_id),";
             "PRIMARY KEY(rental_id AUTOINCREMENT)"; ");"])
    = Finished s' /\
    output s' = dump ["CREATE TABLE IF NOT EXISTS rental (";
                      "rental_id SERIAL PRIMARY KEY,";
                      "customer_id INTEGER NOT NULL"; ");"] /\
    fk_buffer s'
    = [mk_fk "rental"
         (ln "FOREIGN KEY (customer_id) REFERENCES customer(customer_id),")] /\
    foundTable s' = false /\
    currentTableName s' = EmptyString /\
    tableCount s' = 1%nat.
Proof.
  apply (table_block_written init
           (ln "CREATE TABLE IF NOT EXISTS rental (")
           (dump ["rental_id INTEGER NOT NULL,";
                  "customer_id INTEGER NOT NULL,";
                  "FOREIGN KEY (customer_id) REFERENCES customer(customer_id),";
                  "PRIMARY KEY(rental_id AUTOINCREMENT)"])
           (ln ");")).
  - reflexivity.
  - repeat constructor.
  - reflexivity.
  - reflexivity.
Defined.

(** ** What is written stays written *)

Lemma output_extends_route (m : state) (line : string) :
  exists added, output (state_of (route m line)) = (output m ++ added)%list.
Proof.
  unfold route.
  repeat match goal with
         | |- context [if ?b then _ else _] => destruct b
         | |- context [match a_line m with _ => _ end] => destruct (a_line m)
         end; simpl; eexists; try reflexivity;
    symmetry; apply app_nil_r.
Qed.

Lemma output_extends_step (s : state) (raw : string) :
  exists added, output (state_of (step s raw)) = (output s ++ added)%list.
Proof.
  unfold step, step_rewritten, capture_foreign_key.
  set (line := token_rewrite raw).
  assert (Ho : output (open_table s line) = output s)
    by apply open_table_keeps.
  destruct (captures (open_table s line) line);
    match goal with
    | |- context [route ?m ?l] =>
        destruct (output_extends_route m l) as [added Ha]
    end; exists added; rewrite Ha; simpl; rewrite Ho; reflexivity.
Qed.

Lemma output_extends_process (lines : list string) (s : state) :
  exists added,
    output (state_of (process s lines)) = (output s ++ added)%list.
Proof.
  revert s. induction lines as [|raw rest IH]; intros s.
  - exists []. symmetry. apply app_nil_r.
  - simpl. destruct (output_extends_step s raw) as [a Ha].
    destruct (step s raw) as [s1|e1]; simpl in Ha.
    + destruct (IH s1) as [b Hb]. exists (a ++ b)%list.
      rewrite Hb, Ha, app_assoc. reflexivity.
    + exists a. exact Ha.
Qed.

(** X13.  The output is only appended to: what the loop has written after
    any part of the input is the beginning of what the run leaves in the
    file, whatever lines follow and whether or not the run completes. *)
Theorem written_output_is_kept (pre post : list string) (s : state) :
  process init pre = Finished s ->
  exists rest,
    file_content (run (pre ++ post)%list) = (output s ++ rest)%list.
Proof.
  intros Hpre. unfold run. rewrite process_app, Hpre.
  destruct (output_extends_process post s) as [added Ha].
  destruct (process s post) as [s'|e]; simpl in Ha |- *.
  - eexists. rewrite Ha, <- app_assoc. reflexivity.
  - exists added. exact Ha.
Qed.

Lemma written_output_is_kept_witness :
  exists rest,
    file_content
      (run (dump ["INSERT INTO t VALUES(1);"; "CREATE VIEW v AS"; "SELECT 1;"]))
    = (dump ["INSERT INTO t VALUES(1);"] ++ rest)%list.
Proof.
  apply (written_output_is_kept
           (dump ["INSERT INTO t VALUES(1);"])
           (dump ["CREATE VIEW v AS"; "SELECT 1;"])
           (state_of (process init (dump ["INSERT INTO t VALUES(1);"])))).
  reflexivity.
Defined.

(** ** Every written string is a line *)

Lemma endswith_app_r (x y suf : string) :
  Py.endswith y suf = true -> Py.endswith (x ++ y) suf = true.
Proof.
  intros H. apply endswith_split in H. rewrite H, <- string_app_assoc.
  apply endswith_app.
Qed.

Lemma token_rewrite_ends (raw : string) :
  Py.endswith (token_rewrite raw) Py.nl = true.
Proof. destruct (token_rewrite_line raw) as [body ->]. apply endswith_app. Qed.

Lemma modify_primary_key_syntax_ends (a : string) :
  a = EmptyString \/ Py.endswith a Py.nl = true ->
  modify_primary_key_syntax a = EmptyString \/
  Py.endswith (modify_primary_key_syntax a) Py.nl = true.
Proof.
  intros H. unfold modify_primary_key_syntax.
  destruct (Py.find a " " >=? 0); [|exact H].
  right. apply endswith_app_r. reflexivity.
Qed.

Lemma drop_trailing_comma_ends (a : string) :
  a = EmptyString \/ Py.endswith a Py.nl = true ->
  drop_trailing_comma a = EmptyString \/
  Py.endswith (drop_trailing_comma a) Py.nl = true.
Proof.
  intros H. unfold drop_trailing_comma.
  destruct (Py.endswith a ("," ++ Py.nl)); [|exact H].
  right. apply endswith_app.
Qed.

Lemma scan_primary_key_ends (buf : list string) :
  Forall (fun a => a = EmptyString \/ Py.endswith a Py.nl = true) buf ->
  Forall (fun a => a = EmptyString \/ Py.endswith a Py.nl = true)
         (snd (scan_primary_key buf)).
Proof.
  intros H. induction H as [|a buf Ha H IH]; simpl; [constructor|].
  destruct (autoincrement_key a).
  - simpl. constructor; [left; reflexivity|exact H].
  - destruct (scan_primary_key buf) as [name rest]. simpl in *.
    constructor; assumption.
Qed.

Lemma rewrite_key_field_ends (name : string) (buf : list string) :
  Forall (fun a => a = EmptyString \/ Py.endswith a Py.nl = true) buf ->
  Forall (fun a => a = EmptyString \/ Py.endswith a Py.nl = true)
         (rewrite_key_field name buf).
Proof.
  intros H. induction H as [|a buf Ha H IH]; simpl; [constructor|].
  destruct (Py.find a name >=? 0); constructor; try assumption.
  apply modify_primary_key_syntax_ends. exact Ha.
Qed.

Lemma fix_comma_reversed_ends (rbuf : list string) :
  Forall (fun a => a = EmptyString \/ Py.endswith a Py.nl = true) rbuf ->
  Forall (fun a => a = EmptyString \/ Py.endswith a Py.nl = true)
         (fix_comma_reversed rbuf).
Proof.
  intros H. induction H as [|a rbuf Ha H IH]; simpl; [constructor|].
  destruct (is_content a); constructor; try assumption.
  apply drop_trailing_comma_ends. exact Ha.
Qed.

Lemma finalized_buffer_ends (buf : list string) :
  Forall (fun a => a = EmptyString \/ Py.endswith a Py.nl = true) buf ->
  Forall (fun a => a = EmptyString \/ Py.endswith a Py.nl = true)
         (fix_trailing_comma (rewrite_primary_key buf)).
Proof.
  intros H. unfold fix_trailing_comma. apply Forall_rev.
  apply fix_comma_reversed_ends, Forall_rev.
  unfold rewrite_primary_key.
  pose proof (scan_primary_key_ends buf H) as Hs.
  destruct (scan_primary_key buf) as [name rest]. simpl in Hs.
  destruct (nonempty name); [apply rewrite_key_field_ends|]; exact Hs.
Qed.

Lemma written_ends (buf : list string) :
  Forall (fun a => a = EmptyString \/ Py.endswith a Py.nl = true) buf ->
  Forall (fun x => Py.endswith x Py.nl = true) (written buf).
Proof.
  intros H. induction H as [|a buf Ha H IH]; simpl; [constructor|].
  destruct (nonempty a) eqn:Hne; [|exact IH].
  constructor; [|exact IH].
  destruct Ha as [->|Ha]; [discriminate|exact Ha].
Qed.

Lemma alter_line_ends (e : fk_entry) :
  (exists raw, fk e = token_rewrite raw) ->
  Py.endswith (alter_line e) Py.nl = true.
Proof.
  intros [raw Hraw]. destruct e as [name text]. simpl in Hraw. subst.
  rewrite alter_line_rewritten.
  do 3 apply endswith_app_r.
  destruct (Py.endswith (token_rewrite raw) ("," ++ Py.nl)).
  - apply endswith_app_r. reflexivity.
  - apply token_rewrite_ends.
Qed.

Lemma lined_init : lined init.
Proof. repeat split; constructor. Qed.

Lemma lined_route (m : state) (line : string) :
  lined m ->
  line = EmptyString \/ Py.endswith line Py.nl = true ->
  lined (state_of (route m line)).
Proof.
  intros (Ho & Hb & Hq) Hline. unfold route.
  destruct (foundTable m).
  - assert (Hbuf : Forall (fun a => a = EmptyString \/
                                    Py.endswith a Py.nl = true)
                     (buffer m ++ [line])).
    { apply Forall_app. split; [exact Hb|]. constructor; [exact Hline|].
      constructor. }
    destruct (Py.startswith line TERMINATOR); simpl.
    + repeat split; simpl; try assumption.
      * apply Forall_app. split; [exact Ho|].
        apply written_ends, finalized_buffer_ends. exact Hbuf.
      * apply finalized_buffer_ends. exact Hbuf.
    + repeat split; simpl; assumption.
  - destruct (foundTrigger m).
    + destruct (a_line m) as [a|]; [|repeat split; assumption].
      destruct (Py.find a CONST_CREATE_TRIGGER_END >=? 0);
        repeat split; assumption.
    + destruct (foundView m).
      * destruct (a_line m) as [a|]; [|repeat split; assumption].
        destruct (Py.find a CONST_CREATE_VIEW_END >=? 0);
          repeat split; assumption.
      * destruct (nonempty line) eqn:Hne; [|repeat split; assumption].
        repeat split; simpl; try assumption.
        apply Forall_app. split; [exact Ho|].
        constructor; [|constructor].
        destruct Hline as [->|H]; [discriminate|exact H].
Qed.

Lemma lined_step (s : state) (raw : string) :
  lined s -> lined (state_of (step s raw)).
Proof.
  intros Hs. unfold step, step_rewritten, capture_foreign_key.
  set (line := token_rewrite raw).
  assert (Hopen : lined (open_table s line)).
  { destruct Hs as (Ho & Hb & Hq). unfold open_table.
    destruct (Py.startswith line CONST_CREATE_TABLE);
      repeat split; simpl; try assumption. constructor. }
  destruct Hopen as (Ho & Hb & Hq).
  destruct (captures (open_table s line) line); apply lined_route.
  - repeat split; simpl; try assumption.
    apply Forall_app. split; [exact Hq|].
    constructor; [|constructor]. exists raw. reflexivity.
  - left. reflexivity.
  - repeat split; simpl; assumption.
  - right. apply token_rewrite_ends.
Qed.

Lemma lined_process (lines : list string) (s : state) :
  lined s -> lined (state_of (process s lines)).
Proof.
  revert s. induction lines as [|raw rest IH]; intros s Hs; [exact Hs|].
  simpl. pose proof (lined_step s raw Hs) as H1.
  destruct (step s raw) as [s1|e1]; [apply IH|]; exact H1.
Qed.

(** X14.  Every string a run writes to the output file ends with a newline:
    the lines written by the main loop, the lines of a finalized block, the
    [ALTER TABLE] lines and [COMMIT;], whether or not the run completes. *)
Theorem written_strings_end_with_newline (lines : list string) :
  Forall (fun x => Py.endswith x Py.nl = true) (file_content (run lines)).
Proof.
  unfold run.
  pose proof (lined_process lines init lined_init) as (Ho & _ & Hq).
  destruct (process init lines) as [s|e]; simpl in *; [|exact Ho].
  apply Forall_app. split; [exact Ho|].
  apply Forall_app. split.
  - apply Forall_map. eapply Forall_impl; [|exact Hq].
    intros e. apply alter_line_ends.
  - constructor; [reflexivity|constructor].
Qed.

(** X15.  In every run the queued constraints are rewritten lines, so the
    test of line 263 for a leading tab never succeeds: each [ALTER TABLE]
    line is the table name and the queued text as they were stored, with only
    a final [",\n"] turned into [";\n"]. *)
Theorem alter_lines_of_a_run (lines : list string) (s : state) :
  process init lines = Finished s ->
  Forall
    (fun e =>
       Py.startswith (fk e) (String Py.TAB EmptyString) = false /\
       alter_line e
       = "ALTER TABLE " ++ table_name e ++ " ADD " ++
         (if Py.endswith (fk e) ("," ++ Py.nl)
          then Py.drop_last2 (fk e) ++ ";" ++ Py.nl
          else fk e))
    (fk_buffer s).
Proof.
  intros Hp.
  pose proof (lined_process lines init lined_init) as (_ & _ & Hq).
  rewrite Hp in Hq. simpl in Hq.
  eapply Forall_impl; [|exact Hq].
  intros [name text] [raw Hraw]. simpl in Hraw. subst. cbn [fk table_name].
  split; [|apply alter_line_rewritten].
  pose proof (token_rewrite_no_tab raw) as H.
  unfold Py.startswith. destruct (token_rewrite raw) as [|x l]; [reflexivity|].
  cbn [occurs] in H. apply orb_false_elim in H. destruct H as [Hx _].
  apply prefix_head_differs. exact Hx.
Qed.

Lemma alter_lines_of_a_run_witness :
  Forall
    (fun e =>
       Py.startswith (fk e) (String Py.TAB EmptyString) = false /\
       alter_line e
       = "ALTER TABLE " ++ table_name e ++ " ADD " ++
         (if Py.endswith (fk e) ("," ++ Py.nl)
          then Py.drop_last2 (fk e) ++ ";" ++ Py.nl
          else fk e))
    (fk_buffer
       (state_of (process init
          (dump ["CREATE TABLE IF NOT EXISTS rental (";
                 "FOREIGN KEY (a) REFERENCES b(id),"; ");"])))).
Proof.
  apply (alter_lines_of_a_run
           (dump ["CREATE TABLE IF NOT EXISTS rental (";
                  "FOREIGN KEY (a) REFERENCES b(id),"; ");"])).
  vm_compute. reflexivity.
Defined.

(** * The boolean rewrite on a whole line (lines 122-145) *)

(** ** A pattern that was absent stays absent *)

Lemma differ_prefix (p n x : string) :
  differ p n = true -> String.prefix p (n ++ x) = false.
Proof.
  revert n. induction p as [|a p IH]; intros n H; [discriminate|].
  destruct n as [|b n]; [discriminate|].
  simpl in H. cbn [append].
  destruct (Ascii.eqb a b) eqn:Hab.
  - apply Ascii.eqb_eq in Hab. subst b. rewrite prefix_cons_same.
    simpl in H. auto.
  - apply prefix_head_differs. exact Hab.
Qed.

Lemma index_app_none_nowhere (p n x : string) :
  starts_nowhere p n = true ->
  String.index 0 p x = None ->
  String.index 0 p (n ++ x) = None.
Proof.
  intros Hn Hx. induction n as [|c n IH]; [exact Hx|].
  simpl in Hn. apply andb_prop in Hn. destruct Hn as [Hd Hn].
  change (String c n ++ x) with (String c (n ++ x)).
  rewrite index0_cons.
  change (String c (n ++ x)) with (String c n ++ x).
  rewrite (differ_prefix _ _ _ Hd), (IH Hn). reflexivity.
Qed.

Lemma prefix_replace_false_nowhere (old new p t : string) :
  crosses_nowhere p new = true ->
  String.prefix p t = false ->
  String.prefix p (Py.replace_aux old new 0 t) = false.
Proof.
  revert t. induction p as [|a p IH]; intros t Hc Hp.
  - rewrite prefix_nil in Hp. discriminate.
  - simpl in Hc. apply andb_prop in Hc. destruct Hc as [Hd Hc].
    destruct t as [|c t]; [reflexivity|].
    cbn [Py.replace_aux].
    destruct (String.prefix old (String c t)).
    + apply differ_prefix. exact Hd.
    + destruct (ascii_dec a c) as [->|Hne].
      * rewrite prefix_cons_same in *. auto.
      * apply prefix_head_differs. apply Ascii.eqb_neq. exact Hne.
Qed.

Lemma replace_aux_keeps_absent_nowhere (old new p : string) :
  starts_nowhere p new = true ->
  crosses_nowhere p new = true ->
  forall s k,
    String.index 0 p s = None ->
    String.index 0 p (Py.replace_aux old new k s) = None.
Proof.
  intros Hn Hc. induction s as [|c s IH]; intros k Hs; [exact Hs|].
  apply index0_none_cons in Hs. destruct Hs as [Hpre Hs].
  cbn [Py.replace_aux]. destruct k as [|k]; [|auto].
  destruct (String.prefix old (String c s)) eqn:Hold.
  - apply index_app_none_nowhere; auto.
  - rewrite index0_cons.
    assert (Hr : String.prefix p (Py.replace_aux old new 0 (String c s))
                 = false)
      by (apply prefix_replace_false_nowhere; assumption).
    cbn [Py.replace_aux] in Hr. rewrite Hold in Hr. rewrite Hr.
    rewrite IH by exact Hs. reflexivity.
Qed.

(** Replacing [old] by [new] brings in no occurrence of [p], when [p] can
    neither start inside [new] nor end inside it. *)
Lemma replace_keeps_absent_nowhere (s old new p : string) :
  starts_nowhere p new && crosses_nowhere p new = true ->
  Py.find s p = -1 ->
  Py.find (Py.replace s old new) p = -1.
Proof.
  intros H Hs. apply andb_prop in H. destruct H as [Hn Hc].
  apply find_absent. apply find_absent in Hs.
  apply replace_aux_keeps_absent_nowhere; assumption.
Qed.

Lemma prefix_insert_false (p n a b : string) :
  crosses_nowhere p n = true ->
  String.prefix p (a ++ b) = false ->
  String.prefix p (a ++ n ++ b) = false.
Proof.
  revert a. induction p as [|x p IH]; intros a Hc Hp.
  - rewrite prefix_nil in Hp. discriminate.
  - simpl in Hc. apply andb_prop in Hc. destruct Hc as [Hd Hc].
    destruct a as [|c a].
    + cbn [append]. apply differ_prefix. exact Hd.
    + cbn [append] in *. destruct (ascii_dec x c) as [->|Hne].
      * rewrite prefix_cons_same in *. auto.
      * apply prefix_head_differs. apply Ascii.eqb_neq. exact Hne.
Qed.

(** Putting [n] into a string brings in no occurrence of [p], under the same
    conditions. *)
Lemma index_insert_none (p n a b : string) :
  starts_nowhere p n = true ->
  crosses_nowhere p n = true ->
  String.index 0 p (a ++ b) = None ->
  String.index 0 p (a ++ n ++ b) = None.
Proof.
  intros Hn Hc. induction a as [|c a IH]; intros H.
  - cbn [append] in *. apply index_app_none_nowhere; assumption.
  - cbn [append] in *. apply index0_none_cons in H. destruct H as [Hp Hi].
    rewrite index0_cons.
    change (String c (a ++ n ++ b)) with (String c a ++ n ++ b).
    rewrite (prefix_insert_false p n (String c a) b Hc Hp).
    rewrite (IH Hi). reflexivity.
Qed.

Lemma patch_missing_datatype_keeps_absent (line p : string) :
  starts_nowhere p CONST_DATATYPE_TEXT
  && crosses_nowhere p CONST_DATATYPE_TEXT = true ->
  Py.find line p = -1 ->
  Py.find (patch_missing_datatype line) p = -1.
Proof.
  intros H Hl. apply andb_prop in H. destruct H as [Hn Hc].
  unfold patch_missing_datatype.
  set (pt := Py.find line " ").
  destruct (pt >? 0) eqn:Hpt; [|exact Hl].
  destruct (String.eqb_spec (Py.slice line (pt + 1) (pt + 8)) CONST_DEFAULT)
    as [He|]; [|exact Hl].
  apply Z.gtb_lt in Hpt. unfold Py.slice in He.
  replace (pt + 8 - (pt + 1)) with 7 in He by lia.
  pose proof (substring_length_le line (Z.to_nat (pt + 1)) (Z.to_nat 7)) as Hlen.
  rewrite He in Hlen. simpl in Hlen.
  apply find_absent. apply find_absent in Hl.
  unfold Py.slice_to, Py.slice_from.
  apply index_insert_none; try assumption.
  rewrite <- substring_split by lia. exact Hl.
Qed.

(** The written line never holds [BOOLEAN]. *)
Lemma token_rewrite_no_boolean (raw : string) :
  Py.find (token_rewrite raw) CONST_DATATYPE_BOOLEAN = -1.
Proof.
  unfold token_rewrite. set (h := rewrite_head raw). clearbody h.
  assert (Hb : Py.find (rewrite_boolean h) CONST_DATATYPE_BOOLEAN = -1).
  { destruct (Py.find h CONST_DATATYPE_BOOLEAN >=? 0) eqn:Hh.
    - apply (rewrite_boolean_stage h Hh).
    - unfold rewrite_boolean. rewrite Hh. apply find_test_absent. exact Hh. }
  set (b := rewrite_boolean h) in *. clearbody b.
  apply patch_missing_datatype_keeps_absent; [reflexivity|].
  unfold rewrite_types.
  repeat (apply replace_keeps_absent_nowhere; [reflexivity|]).
  exact Hb.
Qed.

(** ** A pattern that was present stays present *)

Lemma find_present (s p : string) :
  (Py.find s p >=? 0) = true <-> String.index 0 p s <> None.
Proof.
  unfold Py.find. destruct (String.index 0 p s); split; intros H;
    try congruence; try (apply Z.geb_le; lia).
  apply Z.geb_le in H. lia.
Qed.

Lemma present_cons (p : string) (c : ascii) (s : string) :
  String.index 0 p (String c s) <> None <->
  String.prefix p (String c s) = true \/ String.index 0 p s <> None.
Proof.
  rewrite index0_cons. destruct (String.prefix p (String c s)).
  - split; [auto|discriminate].
  - destruct (String.index 0 p s); simpl; split.
    + intros _. right. discriminate.
    + intros _. discriminate.
    + intros H. congruence.
    + intros [H|H]; congruence.
Qed.

Lemma present_app_r (p a s : string) :
  String.index 0 p s <> None -> String.index 0 p (a ++ s) <> None.
Proof.
  intros H. induction a as [|c a IH]; [exact H|].
  cbn [append]. apply present_cons. right. exact IH.
Qed.

Lemma prefix_app_l (p s b : string) :
  String.prefix p s = true -> String.prefix p (s ++ b) = true.
Proof.
  intros H. destruct (prefix_split _ _ H) as [t ->].
  rewrite string_app_assoc. apply prefix_app_self.
Qed.

Lemma present_app_l (p s b : string) :
  String.index 0 p s <> None -> String.index 0 p (s ++ b) <> None.
Proof.
  induction s as [|c s IH]; intros H.
  - destruct p as [|x p]; [|simpl in H; congruence].
    destruct b; simpl; discriminate.
  - cbn [append]. apply present_cons. apply present_cons in H.
    destruct H as [H|H].
    + left. change (String c (s ++ b)) with (String c s ++ b).
      apply prefix_app_l. exact H.
    + right. auto.
Qed.

(** An occurrence of [p] that starts behind [a] when [a] does not hold the
    first character of [p]. *)
Lemma present_behind (p0 : ascii) (p' a t : string) :
  occurs p0 a = false ->
  String.index 0 (String p0 p') (a ++ t) <> None ->
  String.index 0 (String p0 p') t <> None.
Proof.
  intros Ha. induction a as [|x a IH]; intros H; [exact H|].
  simpl in Ha. apply orb_false_elim in Ha. destruct Ha as [Hx Ha].
  cbn [append] in H. apply present_cons in H. destruct H as [H|H].
  - rewrite prefix_head_differs in H by exact Hx. discriminate.
  - auto.
Qed.

Lemma prefix_replace_true (o : ascii) (old' new p s : string) :
  occurs o p = false ->
  String.prefix p s = true ->
  String.prefix p (Py.replace s (String o old') new) = true.
Proof.
  revert s. induction p as [|a p IH]; intros s Ho Hp; [apply prefix_nil|].
  destruct s as [|c s]; [discriminate|].
  simpl in Ho. apply orb_false_elim in Ho. destruct Ho as [Hoa Ho].
  destruct (ascii_dec a c) as [<-|Hne].
  - rewrite prefix_cons_same in Hp.
    rewrite replace_miss by (apply prefix_head_differs; exact Hoa).
    rewrite prefix_cons_same. auto.
  - rewrite prefix_head_differs in Hp by (apply Ascii.eqb_neq; exact Hne).
    discriminate.
Qed.

Lemma replace_keeps_present_len (o : ascii) (old' new : string) (p0 : ascii)
  (p' : string) :
  occurs o (String p0 p') = false ->
  occurs p0 (String o old') = false ->
  forall n s, (String.length s <= n)%nat ->
    String.index 0 (String p0 p') s <> None ->
    String.index 0 (String p0 p') (Py.replace s (String o old') new) <> None.
Proof.
  intros Ho Hp. induction n as [|n IH]; intros s Hlen Hs.
  - destruct s; [simpl in Hs; congruence|simpl in Hlen; lia].
  - destruct s as [|c s]; [simpl in Hs; congruence|].
    destruct (String.prefix (String o old') (String c s)) eqn:Hold.
    + destruct (prefix_split _ _ Hold) as [t Ht]. rewrite Ht in *.
      rewrite replace_match. apply present_app_r. apply IH.
      * rewrite string_length_app in Hlen. simpl in Hlen. lia.
      * eapply present_behind; [exact Hp|exact Hs].
    + rewrite (replace_miss _ _ _ _ Hold).
      apply present_cons. apply present_cons in Hs. destruct Hs as [Hs|Hs].
      * left. rewrite <- (replace_miss _ new _ _ Hold).
        apply prefix_replace_true; assumption.
      * right. apply IH; [simpl in Hlen; lia|exact Hs].
Qed.

(** Replacing [old] removes no occurrence of [p] when the two cannot
    overlap. *)
Lemma replace_keeps_present (s old new p : string) :
  apart old p = true ->
  String.index 0 p s <> None ->
  String.index 0 p (Py.replace s old new) <> None.
Proof.
  unfold apart. destruct old as [|o old']; [discriminate|].
  destruct p as [|p0 p']; [discriminate|].
  intros H Hs. apply andb_prop in H. destruct H as [H1 H2].
  apply negb_true_iff in H1. apply negb_true_iff in H2.
  apply (replace_keeps_present_len o old' new p0 p' H1 H2
           (String.length s) s); [lia|exact Hs].
Qed.

Lemma present_lstrip (p0 : ascii) (p' s : string) :
  Py.isspace p0 = false ->
  String.index 0 (String p0 p') s <> None ->
  String.index 0 (String p0 p') (Py.lstrip s) <> None.
Proof.
  intros Hsp. induction s as [|c s IH]; intros H; [exact H|].
  simpl. destruct (Py.isspace c) eqn:Hc; [|exact H].
  apply present_cons in H. destruct H as [H|H]; [|auto].
  destruct (ascii_dec p0 c) as [->|Hne]; [congruence|].
  rewrite prefix_head_differs in H by (apply Ascii.eqb_neq; exact Hne).
  discriminate.
Qed.

Lemma prefix_rstrip (p s : string) :
  spaceless p = true ->
  String.prefix p s = true ->
  String.prefix p (Py.rstrip s) = true.
Proof.
  revert s. induction p as [|a p IH]; intros s Hsp Hp; [apply prefix_nil|].
  destruct s as [|c s]; [discriminate|].
  simpl in Hsp. apply andb_prop in Hsp. destruct Hsp as [Ha Hsp].
  apply negb_true_iff in Ha.
  destruct (ascii_dec a c) as [<-|Hne].
  - rewrite prefix_cons_same in Hp. specialize (IH s Hsp Hp).
    cbn [Py.rstrip]. destruct (Py.rstrip s) as [|y r].
    + rewrite Ha. rewrite prefix_cons_same. exact IH.
    + rewrite prefix_cons_same. exact IH.
  - rewrite prefix_head_differs in Hp by (apply Ascii.eqb_neq; exact Hne).
    discriminate.
Qed.

Lemma present_rstrip (p0 : ascii) (p' s : string) :
  spaceless (String p0 p') = true ->
  String.index 0 (String p0 p') s <> None ->
  String.index 0 (String p0 p') (Py.rstrip s) <> None.
Proof.
  intros Hsp. induction s as [|c s IH]; intros H; [exact H|].
  apply present_cons in H. destruct H as [H|H].
  - apply (prefix_rstrip _ _ Hsp) in H.
    destruct (Py.rstrip (String c s)) as [|y r] eqn:Hr; [discriminate|].
    apply present_cons. left. exact H.
  - specialize (IH H). cbn [Py.rstrip].
    destruct (Py.rstrip s) as [|y r]; [simpl in IH; congruence|].
    apply present_cons. right. exact IH.
Qed.

(** Lines 122-126 keep every [BOOLEAN] of the input line. *)
Lemma rewrite_head_keeps_boolean (raw : string) :
  (Py.find raw CONST_DATATYPE_BOOLEAN >=? 0) = true ->
  (Py.find (rewrite_head raw) CONST_DATATYPE_BOOLEAN >=? 0) = true.
Proof.
  intros H. apply find_present. apply find_present in H.
  unfold rewrite_head.
  do 3 (apply replace_keeps_present; [reflexivity|]).
  apply present_app_l. unfold Py.strip.
  apply present_rstrip; [reflexivity|].
  apply present_lstrip; [reflexivity|].
  do 2 (apply replace_keeps_present; [reflexivity|]).
  exact H.
Qed.

(** ** The rewrite of a line that holds [BOOLEAN] *)

(** C7, as the code has it.  On every input line that holds [BOOLEAN], the
    line still holds it when line 127 tests it, every [BOOLEAN] is renamed to
    [INTEGER], and the line that is written holds no [BOOLEAN].  If the
    renamed line holds the substring [TRUE] anywhere, every [TRUE] becomes
    [1] and [FALSE] is left as it is; only if it holds no [TRUE] and holds
    [FALSE] does every [FALSE] become [0]: one kind of literal per line.  The
    rewrites of lines 133-145 then run on the result.  The line
    [active BOOLEAN DEFAULT TRUE,] becomes [active INTEGER DEFAULT 1,]. *)
Theorem boolean_line_rewritten (raw : string) :
  (Py.find raw CONST_DATATYPE_BOOLEAN >=? 0) = true ->
  let head := rewrite_head raw in
  let renamed :=
    Py.replace head CONST_DATATYPE_BOOLEAN CONST_DATATYPE_INTEGER in
  let later := fun line => patch_missing_datatype (rewrite_types line) in
  (Py.find head CONST_DATATYPE_BOOLEAN >=? 0) = true /\
  Py.find renamed CONST_DATATYPE_BOOLEAN = -1 /\
  Py.find (token_rewrite raw) CONST_DATATYPE_BOOLEAN = -1 /\
  ((Py.find renamed CONST_BOOL_TRUE >=? 0) = true ->
   token_rewrite raw = later (Py.replace renamed CONST_BOOL_TRUE "1") /\
   Py.find (Py.replace renamed CONST_BOOL_TRUE "1") CONST_BOOL_TRUE = -1) /\
  ((Py.find renamed CONST_BOOL_TRUE >=? 0) = false ->
   (Py.find renamed CONST_BOOL_FALSE >=? 0) = true ->
   token_rewrite raw = later (Py.replace renamed CONST_BOOL_FALSE "0") /\
   Py.find (Py.replace renamed CONST_BOOL_FALSE "0") CONST_BOOL_FALSE = -1) /\
  ((Py.find renamed CONST_BOOL_TRUE >=? 0) = false ->
   (Py.find renamed CONST_BOOL_FALSE >=? 0) = false ->
   token_rewrite raw = later renamed) /\
  token_rewrite (ln "active BOOLEAN DEFAULT TRUE,")
  = ln "active INTEGER DEFAULT 1,".
Proof.
  intros Hraw head renamed later.
  pose proof (rewrite_head_keeps_boolean raw Hraw) as Hhead. fold head in Hhead.
  destruct (rewrite_boolean_stage head Hhead) as (_ & Htrue & Hfalse & Hnone).
  fold renamed in Htrue, Hfalse, Hnone.
  split; [exact Hhead|].
  split; [apply replace_removes; reflexivity|].
  split; [apply token_rewrite_no_boolean|].
  unfold token_rewrite. fold head.
  split; [|split; [|split]].
  - intros Ht. destruct (Htrue Ht) as [Heq Habs]. rewrite Heq in *.
    split; [reflexivity|exact Habs].
  - intros Ht Hf. destruct (Hfalse Ht Hf) as [Heq Habs]. rewrite Heq in *.
    split; [reflexivity|exact Habs].
  - intros Ht Hf. rewrite (Hnone Ht Hf). reflexivity.
  - vm_compute. reflexivity.
Qed.

Lemma boolean_line_rewritten_witness :
  Py.find (token_rewrite (ln "is_active BOOLEAN NOT NULL DEFAULT FALSE,"))
          CONST_DATATYPE_BOOLEAN = -1 /\
  token_rewrite (ln "is_active BOOLEAN NOT NULL DEFAULT FALSE,")
  = ln "is_active INTEGER NOT NULL DEFAULT 0,".
Proof.
  destruct (boolean_line_rewritten
              (ln "is_active BOOLEAN NOT NULL DEFAULT FALSE,") eq_refl)
    as (_ & _ & Habsent & _ & Hfalse & _).
  split; [exact Habsent|].
  destruct (Hfalse eq_refl eq_refl) as [Heq _].
  rewrite Heq. vm_compute. reflexivity.
Defined.

(** The claim as the spec words it fails.  A line with [BOOLEAN] and the
    literal [FALSE] keeps its [FALSE] when [TRUE] occurs anywhere in it, here
    inside a name; two [TRUE] literals on a line are both rewritten; and a
    [BOOLEAN] inside a longer word is renamed and then rewritten again by
    line 136. *)
Lemma boolean_literal_rewrite_fails :
  token_rewrite (ln "IS_TRUE BOOLEAN DEFAULT FALSE,")
  = ln "IS_1 INTEGER DEFAULT FALSE," /\
  token_rewrite (ln "a BOOLEAN DEFAULT TRUE, b BOOLEAN DEFAULT TRUE,")
  = ln "a INTEGER DEFAULT 1, b INTEGER DEFAULT 1," /\
  token_rewrite (ln "x MEDIUMBOOLEAN DEFAULT TRUE,")
  = ln "x INTEGEREGER DEFAULT 1,".
Proof. vm_compute. repeat split; reflexivity. Qed.
